(** * Student management API: a model of [main.py] and its integrity rules

    The service is a set of FastAPI handlers over three tables of a remote
    table store (students, courses, enrollments).  Each handler is embedded
    as a function in a state-and-exception monad over the store; the thin
    client's query builder ([select], [eq], [not_.is_], [update], [delete],
    [insert], [execute]) is embedded as a list of row predicates that one
    [execute] call applies to a table.  Grades are Python floats, that is
    IEEE 754 binary64 numbers, and are embedded as primitive floats; the
    client sends them as JSON, which has no NaN and no infinity, so an
    insert or an update that carries one raises [ValueError]. *)

From Stdlib Require Import ZArith Floats.
From stdpp Require Import base option list strings.

Set Warnings "-inexact-float".
Local Open Scope string_scope.
Local Open Scope list_scope.
Local Open Scope Z_scope.

(** ** Python values: exceptions, truthiness, floats *)

Inductive exn : Type :=
  | HTTPException (status_code : Z) (detail : string)
  | IndexError
  | TypeError
  | ZeroDivisionError
  | ValueError.

Inductive outcome (A : Type) : Type :=
  | Returned (a : A)
  | Raised (e : exn).
Arguments Returned {A} a.
Arguments Raised {A} e.

(** [if xs:] on a list. *)
Definition py_bool_list {A} (xs : list A) : bool :=
  match xs with
  | [] => false
  | _ :: _ => true
  end.

(** [if n:] on an [int]: only [0] is falsy. *)
Definition py_bool_int (n : Z) : bool := negb (n =? 0).

Module PyFloat.

(** [float(n)] for an [int] [n]: the nearest binary64 number, exact up to
    2^53. *)
Definition of_int (n : Z) : float :=
  SF2Prim (binary_normalize prec emax n 0 false).

(** [sum(xs)]: starts from the [int] 0 and adds the items from left to
    right; an item that is [None] makes the addition raise [TypeError]. *)
Fixpoint sum_from (acc : float) (xs : list (option float)) : outcome float :=
  match xs with
  | [] => Returned acc
  | Some x :: xs' => sum_from (acc + x)%float xs'
  | None :: _ => Raised TypeError
  end.

Definition sum (xs : list (option float)) : outcome float :=
  sum_from 0%float xs.

(** The same sum over items known to be floats. *)
Definition fsum (xs : list float) : float :=
  fold_left PrimFloat.add xs 0%float.

(** [x / n] for a float [x] and an [int] [n]. *)
Definition truediv (x : float) (n : Z) : outcome float :=
  if n =? 0 then Raised ZeroDivisionError
  else Returned (x / of_int n)%float.

(** Nearest integer to [a / d] for [d > 0], ties to even. *)
Definition round_half_even_div (a d : Z) : Z :=
  let (q, r) := Z.div_eucl a d in
  match Z.compare (2 * r) d with
  | Lt => q
  | Gt => q + 1
  | Eq => if Z.even q then q else q + 1
  end.

(** [round(x, ndigits)] for [ndigits >= 0]: the exact value of [x] is
    rounded half-even to [ndigits] decimals, and the decimal obtained is
    converted back to the nearest binary64 number.  Zeros, infinities and
    NaN round to themselves. *)
Definition round (x : float) (ndigits : N) : float :=
  match Prim2SF x with
  | S754_finite s m e =>
      let scale := 10 ^ Z.of_N ndigits in
      let n := if 0 <=? e then Z.pos m * scale * 2 ^ e
               else round_half_even_div (Z.pos m * scale) (2 ^ (- e)) in
      match n with
      | Zpos p =>
          SF2Prim (SFdiv prec emax (S754_finite s p 0)
                                   (S754_finite false (Z.to_pos scale) 0))
      | _ => SF2Prim (S754_zero s)
      end
  | _ => x
  end.

(** Whether [json.dumps(x, allow_nan=False)], the encoding the store client
    applies to a request body, accepts the float [x]: NaN and the two
    infinities make it raise [ValueError]. *)
Definition json_ok (x : float) : bool := is_finite x.

End PyFloat.

(** ** Data models *)

Record StudentBase : Type := mkStudentBase {
  sb_name : string;
  sb_email : string
}.

Record Student : Type := mkStudent {
  s_id : Z;
  s_name : string;
  s_email : string
}.

(** [prerequisites] is an [Optional[List[str]]]: a list, or [None]. *)
Record CourseBase : Type := mkCourseBase {
  cb_name : string;
  cb_instructor : string;
  cb_prerequisites : option (list string)
}.

Record Course : Type := mkCourse {
  c_id : Z;
  c_name : string;
  c_instructor : string;
  c_prerequisites : option (list string)
}.

(** [EnrollmentBase]; [Enrollment] adds nothing to it. *)
Record Enrollment : Type := mkEnrollment {
  student_id : Z;
  course_id : Z;
  grade : option float
}.

(** Whether the dict of an enrollment can be sent as a JSON body: its
    grade is [None] or a finite float. *)
Definition enrollment_json_ok (e : Enrollment) : bool :=
  match grade e with
  | Some g => PyFloat.json_ok g
  | None => true
  end.

(** The pair that identifies an enrollment. *)
Definition enrollment_key (e : Enrollment) : Z * Z :=
  (student_id e, course_id e).

(** ** The table store *)

(** The rows of the three tables, in store order, and the identity
    sequences of the two tables that have an [id] column. *)
Record Store : Type := mkStore {
  db_students : list Student;
  db_courses : list Course;
  db_enrollments : list Enrollment;
  students_seq : Z;
  courses_seq : Z
}.

Definition empty_store : Store :=
  {| db_students := []; db_courses := []; db_enrollments := [];
     students_seq := 1; courses_seq := 1 |}.

(** A handler runs against the store and returns or raises. *)
Definition handler (A : Type) : Type := Store → outcome A * Store.

Definition ret {A} (a : A) : handler A := λ st, (Returned a, st).

Definition raise {A} (e : exn) : handler A := λ st, (Raised e, st).

Definition bind {A B} (m : handler A) (k : A → handler B) : handler B :=
  λ st, match m st with
        | (Returned a, st') => k a st'
        | (Raised e, st') => (Raised e, st')
        end.

Notation "x <- m ;; k" := (bind m (λ x, k))
  (at level 100, m at next level, right associativity).
Notation "m ;;; k" := (bind m (λ _, k))
  (at level 100, right associativity).

(** Lifting a Python expression that may raise. *)
Definition lift {A} (o : outcome A) : handler A := λ st, (o, st).

(** [xs[0]] *)
Definition item0 {A} (xs : list A) : handler A :=
  match xs with
  | x :: _ => ret x
  | [] => raise IndexError
  end.

Module Supabase.

(** A table of the store: how to read and replace its rows, whether an
    inserted payload can be encoded as the JSON body of the request, and how
    it becomes a stored row (the store assigns the [id]).  The rows are kept
    in insertion order; the order in which the real store lists them is its
    own. *)
Record Table (Payload Row : Type) : Type := mkTable {
  rows : Store → list Row;
  set_rows : list Row → Store → Store;
  encodes : Payload → bool;
  assign : Payload → Store → Row * Store
}.
Arguments rows {Payload Row} _ _.
Arguments set_rows {Payload Row} _ _ _.
Arguments encodes {Payload Row} _ _.
Arguments assign {Payload Row} _ _ _.

(** The dict of an update: whether it can be encoded as a JSON body, and
    the columns it sets in a row. *)
Record Patch (Row : Type) : Type := mkPatch {
  patch_encodes : bool;
  patch_set : Row → Row
}.
Arguments patch_encodes {Row} _.
Arguments patch_set {Row} _ _.

Inductive verb (Row : Type) : Type :=
  | Select
  | Delete
  | Update (patch : Patch Row).
Arguments Select {Row}.
Arguments Delete {Row}.
Arguments Update {Row} patch.

(** A query under construction: the verb and the chained filters. *)
Record Query (Payload Row : Type) : Type := mkQuery {
  q_table : Table Payload Row;
  q_verb : verb Row;
  q_filters : list (Row → bool)
}.
Arguments q_table {Payload Row} _.
Arguments q_verb {Payload Row} _.
Arguments q_filters {Payload Row} _.

Section Builder.
Context {Payload Row : Type}.

Definition select (t : Table Payload Row) : Query Payload Row :=
  {| q_table := t; q_verb := Select; q_filters := [] |}.

Definition delete (t : Table Payload Row) : Query Payload Row :=
  {| q_table := t; q_verb := Delete; q_filters := [] |}.

Definition update (t : Table Payload Row) (patch : Patch Row)
  : Query Payload Row :=
  {| q_table := t; q_verb := Update patch; q_filters := [] |}.

Definition add_filter (f : Row → bool) (q : Query Payload Row)
  : Query Payload Row :=
  {| q_table := q_table q; q_verb := q_verb q;
     q_filters := q_filters q ++ [f] |}.

(** [.eq(column, value)] *)
Definition eq_ {V} `{EqDecision V} (column : Row → V) (value : V)
  : Query Payload Row → Query Payload Row :=
  add_filter (λ r, bool_decide (column r = value)).

(** [.not_.is_(column, None)] *)
Definition not_is_null {V} (column : Row → option V)
  : Query Payload Row → Query Payload Row :=
  add_filter (λ r, match column r with Some _ => true | None => false end).

(** A row is selected when every chained filter accepts it. *)
Definition matches (fs : list (Row → bool)) (r : Row) : bool :=
  forallb (λ f, f r) fs.

(** [.execute()]: the rows selected, deleted or updated are returned
    as [data].  An update whose dict cannot be encoded raises [ValueError]
    before anything is sent, so no row is changed. *)
Definition execute (q : Query Payload Row) : handler (list Row) :=
  λ st,
    let t := q_table q in
    let hit := λ r, Is_true (matches (q_filters q) r) in
    match q_verb q with
    | Select => (Returned (filter hit (rows t st)), st)
    | Delete =>
        (Returned (filter hit (rows t st)),
         set_rows t (filter (λ r, ¬ hit r) (rows t st)) st)
    | Update patch =>
        if patch_encodes patch
        then
          (Returned (patch_set patch <$> filter hit (rows t st)),
           set_rows t ((λ r, if matches (q_filters q) r
                             then patch_set patch r else r)
                         <$> rows t st) st)
        else (Raised ValueError, st)
    end.

(** [.insert(payload).execute()]: a payload that cannot be encoded raises
    [ValueError] before anything is sent, so no row is stored. *)
Definition insert (t : Table Payload Row) (payload : Payload)
  : handler (list Row) :=
  λ st,
    if encodes t payload
    then
      let '(row, st') := assign t payload st in
      (Returned [row], set_rows t (rows t st' ++ [row]) st')
    else (Raised ValueError, st).
End Builder.

Definition students : Table StudentBase Student :=
  {| rows := db_students;
     set_rows := λ l st,
       {| db_students := l; db_courses := db_courses st;
          db_enrollments := db_enrollments st;
          students_seq := students_seq st; courses_seq := courses_seq st |};
     encodes := λ _, true;
     assign := λ b st,
       ({| s_id := students_seq st; s_name := sb_name b;
           s_email := sb_email b |},
        {| db_students := db_students st; db_courses := db_courses st;
           db_enrollments := db_enrollments st;
           students_seq := students_seq st + 1;
           courses_seq := courses_seq st |}) |}.

Definition courses : Table CourseBase Course :=
  {| rows := db_courses;
     set_rows := λ l st,
       {| db_students := db_students st; db_courses := l;
          db_enrollments := db_enrollments st;
          students_seq := students_seq st; courses_seq := courses_seq st |};
     encodes := λ _, true;
     assign := λ b st,
       ({| c_id := courses_seq st; c_name := cb_name b;
           c_instructor := cb_instructor b;
           c_prerequisites := cb_prerequisites b |},
        {| db_students := db_students st; db_courses := db_courses st;
           db_enrollments := db_enrollments st;
           students_seq := students_seq st;
           courses_seq := courses_seq st + 1 |}) |}.

Definition enrollments : Table Enrollment Enrollment :=
  {| rows := db_enrollments;
     set_rows := λ l st,
       {| db_students := db_students st; db_courses := db_courses st;
          db_enrollments := l;
          students_seq := students_seq st; courses_seq := courses_seq st |};
     encodes := enrollment_json_ok;
     assign := λ e st, (e, st) |}.

End Supabase.
Import Supabase.

(** ** Responses that are not table rows *)

Record Message : Type := mkMessage { message : string }.

Record GpaResponse : Type := mkGpa {
  gpa : float;
  gpa_message : option string
}.

(** The dict [{"grade": grade}] of an update: it sets the grade column and
    leaves the other columns of the row as they are, and it can be encoded
    only when the grade is finite. *)
Definition with_grade (g : float) (e : Enrollment) : Enrollment :=
  {| student_id := student_id e; course_id := course_id e; grade := Some g |}.

Definition grade_patch (g : float) : Patch Enrollment :=
  {| patch_encodes := PyFloat.json_ok g; patch_set := with_grade g |}.

(** ** The handlers of [main.py] *)

(** Method chaining of the query builder: [q |> f] is [q.f]. *)
Notation "q |> f" := (f q) (at level 45, left associativity, only parsing).

Definition create_student (student : StudentBase) : handler Student :=
  existing <- select students |> eq_ s_email (sb_email student) |> execute ;;
  if py_bool_list existing
  then raise (HTTPException 400 "Email already exists")
  else
    result <- insert students student ;;
    item0 result.

Definition get_students : handler (list Student) :=
  select students |> execute.

Definition delete_student (sid : Z) : handler Message :=
  delete enrollments |> eq_ student_id sid |> execute ;;;
  delete students |> eq_ s_id sid |> execute ;;;
  ret {| message := "Student deleted" |}.

Definition create_course (course : CourseBase) : handler Course :=
  result <- insert courses course ;;
  item0 result.

Definition get_courses : handler (list Course) :=
  select courses |> execute.

Definition delete_course (cid : Z) : handler Message :=
  delete enrollments |> eq_ course_id cid |> execute ;;;
  delete courses |> eq_ c_id cid |> execute ;;;
  ret {| message := "Course deleted" |}.

Definition create_enrollment (enrollment : Enrollment) : handler Enrollment :=
  student <- select students |> eq_ s_id (student_id enrollment) |> execute ;;
  course <- select courses |> eq_ c_id (course_id enrollment) |> execute ;;
  if negb (py_bool_list student)
  then raise (HTTPException 404 "Student not found")
  else if negb (py_bool_list course)
  then raise (HTTPException 404 "Course not found")
  else
    existing <- select enrollments
                  |> eq_ student_id (student_id enrollment)
                  |> eq_ course_id (course_id enrollment) |> execute ;;
    if py_bool_list existing
    then raise (HTTPException 400 "Student already enrolled in this course")
    else
      result <- insert enrollments enrollment ;;
      item0 result.

(** The two parameters are [Optional[int]] with default [None]; [if
    student_id:] is false both for [None] and for [0]. *)
Definition get_enrollments (sid cid : option Z) : handler (list Enrollment) :=
  let query := select enrollments in
  let query :=
    match sid with
    | Some v => if py_bool_int v then query |> eq_ student_id v else query
    | None => query
    end in
  let query :=
    match cid with
    | Some v => if py_bool_int v then query |> eq_ course_id v else query
    | None => query
    end in
  query |> execute.

Definition update_grade (sid cid : Z) (g : float) : handler Enrollment :=
  existing <- select enrollments
                |> eq_ student_id sid |> eq_ course_id cid |> execute ;;
  if negb (py_bool_list existing)
  then raise (HTTPException 404 "Enrollment not found")
  else
    result <- update enrollments (grade_patch g)
                |> eq_ student_id sid |> eq_ course_id cid |> execute ;;
    item0 result.

Definition delete_enrollment (sid cid : Z) : handler Message :=
  delete enrollments |> eq_ student_id sid |> eq_ course_id cid |> execute ;;;
  ret {| message := "Enrollment deleted" |}.

Definition calculate_gpa (sid : Z) : handler GpaResponse :=
  data <- select enrollments
            |> eq_ student_id sid |> not_is_null grade |> execute ;;
  if negb (py_bool_list data)
  then ret {| gpa := 0%float; gpa_message := Some "No grades found" |}
  else
    total_points <- lift (PyFloat.sum (grade <$> data)) ;;
    gpa <- lift (PyFloat.truediv total_points (Z.of_nat (length data))) ;;
    ret {| gpa := PyFloat.round gpa 2; gpa_message := None |}.

(** ** Vocabulary of the integrity rules *)

Definition student_exists (sid : Z) (st : Store) : Prop :=
  ∃ s, s ∈ db_students st ∧ s_id s = sid.

Definition course_exists (cid : Z) (st : Store) : Prop :=
  ∃ c, c ∈ db_courses st ∧ c_id c = cid.

Definition email_taken (email : string) (st : Store) : Prop :=
  ∃ s, s ∈ db_students st ∧ s_email s = email.

Definition enrolled (sid cid : Z) (st : Store) : Prop :=
  ∃ e, e ∈ db_enrollments st ∧ student_id e = sid ∧ course_id e = cid.

#[global] Instance student_exists_dec sid st : Decision (student_exists sid st).
Proof.
  refine (cast_if (decide (Exists (λ s, s_id s = sid) (db_students st))));
    unfold student_exists; by rewrite <- Exists_exists.
Defined.

#[global] Instance course_exists_dec cid st : Decision (course_exists cid st).
Proof.
  refine (cast_if (decide (Exists (λ c, c_id c = cid) (db_courses st))));
    unfold course_exists; by rewrite <- Exists_exists.
Defined.

#[global] Instance email_taken_dec email st : Decision (email_taken email st).
Proof.
  refine (cast_if (decide (Exists (λ s, s_email s = email) (db_students st))));
    unfold email_taken; by rewrite <- Exists_exists.
Defined.

#[global] Instance enrolled_dec sid cid st : Decision (enrolled sid cid st).
Proof.
  refine (cast_if (decide (Exists (λ e, student_id e = sid ∧ course_id e = cid)
                                  (db_enrollments st))));
    unfold enrolled; by rewrite <- Exists_exists.
Defined.

(** The row the store makes of an inserted student: the payload with the
    next identity of the table. *)
Definition stored_student (st : Store) (student : StudentBase) : Student :=
  {| s_id := students_seq st; s_name := sb_name student;
     s_email := sb_email student |}.

(** The non-null grades of a student's enrollments, in store order. *)
Definition graded (sid : Z) (st : Store) : list float :=
  omap grade (filter (λ e, student_id e = sid) (db_enrollments st)).

(** Sum of the grades over their count, in binary64 arithmetic. *)
Definition mean (xs : list float) : float :=
  (PyFloat.fsum xs / PyFloat.of_int (Z.of_nat (length xs)))%float.

(** An equality filter that is supplied ([Some k]) or not ([None]). *)
Definition accepts (key : option Z) (v : Z) : Prop :=
  match key with
  | Some k => v = k
  | None => True
  end.

#[global] Instance accepts_dec key v : Decision (accepts key v).
Proof. destruct key; simpl; apply _. Defined.

(** The filter that the truthiness test of [get_enrollments] lets through:
    a key of 0 is dropped like a key that was not supplied. *)
Definition effective (key : option Z) : option Z :=
  match key with
  | Some k => if k =? 0 then None else Some k
  | None => None
  end.

(** The listing as the specification words it: the rows that satisfy every
    supplied equality filter. *)
Definition spec_listEnrollments (sid cid : option Z) (st : Store)
  : list Enrollment :=
  filter (λ e, accepts sid (student_id e) ∧ accepts cid (course_id e))
         (db_enrollments st).

(** At most one enrollment per (student_id, course_id) pair. *)
Definition unique_enrollments (st : Store) : Prop :=
  NoDup (enrollment_key <$> db_enrollments st).

(** The requests of the HTTP surface, and the store each one leaves. *)
Inductive request : Type :=
  | CreateStudent (student : StudentBase)
  | GetStudents
  | DeleteStudent (sid : Z)
  | CreateCourse (course : CourseBase)
  | GetCourses
  | DeleteCourse (cid : Z)
  | CreateEnrollment (enrollment : Enrollment)
  | GetEnrollments (sid cid : option Z)
  | UpdateGrade (sid cid : Z) (g : float)
  | DeleteEnrollment (sid cid : Z)
  | CalculateGpa (sid : Z).

Definition serve (r : request) (st : Store) : Store :=
  match r with
  | CreateStudent student => snd (create_student student st)
  | GetStudents => snd (get_students st)
  | DeleteStudent sid => snd (delete_student sid st)
  | CreateCourse course => snd (create_course course st)
  | GetCourses => snd (get_courses st)
  | DeleteCourse cid => snd (delete_course cid st)
  | CreateEnrollment enrollment => snd (create_enrollment enrollment st)
  | GetEnrollments sid cid => snd (get_enrollments sid cid st)
  | UpdateGrade sid cid g => snd (update_grade sid cid g st)
  | DeleteEnrollment sid cid => snd (delete_enrollment sid cid st)
  | CalculateGpa sid => snd (calculate_gpa sid st)
  end.

Inductive reachable : Store → Prop :=
  | reachable_empty : reachable empty_store
  | reachable_serve r st : reachable st → reachable (serve r st).

(** No two stored students share an email. *)
Definition unique_emails (st : Store) : Prop :=
  NoDup (s_email <$> db_students st).

(** Every enrollment refers to a stored student and to a stored course. *)
Definition references_exist (st : Store) : Prop :=
  ∀ e, e ∈ db_enrollments st →
    student_exists (student_id e) st ∧ course_exists (course_id e) st.

(** The outcome of a request with the returned value dropped: what is left
    is whether the handler returned or which exception it raised. *)
Definition erase {A} (o : outcome A) : outcome unit :=
  match o with
  | Returned _ => Returned tt
  | Raised e => Raised e
  end.

Definition respond (r : request) (st : Store) : outcome unit :=
  match r with
  | CreateStudent student => erase (fst (create_student student st))
  | GetStudents => erase (fst (get_students st))
  | DeleteStudent sid => erase (fst (delete_student sid st))
  | CreateCourse course => erase (fst (create_course course st))
  | GetCourses => erase (fst (get_courses st))
  | DeleteCourse cid => erase (fst (delete_course cid st))
  | CreateEnrollment enrollment => erase (fst (create_enrollment enrollment st))
  | GetEnrollments sid cid => erase (fst (get_enrollments sid cid st))
  | UpdateGrade sid cid g => erase (fst (update_grade sid cid g st))
  | DeleteEnrollment sid cid => erase (fst (delete_enrollment sid cid st))
  | CalculateGpa sid => erase (fst (calculate_gpa sid st))
  end.

(** The requests whose handler contains a [raise]. *)
Definition may_raise (r : request) : bool :=
  match r with
  | CreateStudent _ | CreateEnrollment _ | UpdateGrade _ _ _ => true
  | _ => false
  end.

(** Whether the grade a request carries, if any, can be encoded as JSON. *)
Definition request_json_ok (r : request) : bool :=
  match r with
  | CreateEnrollment enrollment => enrollment_json_ok enrollment
  | UpdateGrade _ _ g => PyFloat.json_ok g
  | _ => true
  end.

(** The row the store makes of an inserted course. *)
Definition stored_course (st : Store) (course : CourseBase) : Course :=
  {| c_id := courses_seq st; c_name := cb_name course;
     c_instructor := cb_instructor course;
     c_prerequisites := cb_prerequisites course |}.

(** A store after a few requests: two students, three courses, and the
    first student enrolled in all three with grades 3.0, 4.0 and none. *)
Definition sample_store : Store :=
  foldl (λ st r, serve r st) empty_store
    [ CreateStudent {| sb_name := "Ada"; sb_email := "ada@example.org" |};
      CreateStudent {| sb_name := "Bob"; sb_email := "bob@example.org" |};
      CreateCourse {| cb_name := "Logic"; cb_instructor := "Church";
                      cb_prerequisites := Some [] |};
      CreateCourse {| cb_name := "Types"; cb_instructor := "Curry";
                      cb_prerequisites := Some ["Logic"] |};
      CreateCourse {| cb_name := "Proofs"; cb_instructor := "Howard";
                      cb_prerequisites := Some ["Logic"; "Types"] |};
      CreateEnrollment {| student_id := 1; course_id := 1;
                          grade := Some 3%float |};
      CreateEnrollment {| student_id := 1; course_id := 2;
                          grade := Some 4%float |};
      CreateEnrollment {| student_id := 1; course_id := 3; grade := None |} ].


(** ** What one [execute] call returns

    The filters chained by [eq_] are boolean tests on rows; the lemmas below
    restate the result of a query with the property the filters decide. *)

Section Queries.
Context {Payload Row : Type}.
Implicit Types (t : Table Payload Row) (st : Store) (r : Row).
Implicit Types (fs : list (Row → bool)) (P : Row → Prop).

Lemma matches_eq1 {V} `{EqDecision V} (col : Row → V) v r :
  matches [λ r, bool_decide (col r = v)] r ↔ col r = v.
Proof.
  unfold matches; simpl. rewrite andb_true_r. apply bool_decide_spec.
Qed.

Lemma matches_eq2 {V W} `{EqDecision V, EqDecision W}
    (col1 : Row → V) v (col2 : Row → W) w r :
  matches [λ r, bool_decide (col1 r = v); λ r, bool_decide (col2 r = w)] r
  ↔ col1 r = v ∧ col2 r = w.
Proof.
  unfold matches; simpl. rewrite andb_true_r, andb_True.
  by rewrite !bool_decide_spec.
Qed.

Lemma execute_select_iff t fs P `{∀ r, Decision (P r)} st :
  (∀ r, matches fs r ↔ P r) →
  execute (mkQuery _ _ t Select fs) st = (Returned (filter P (rows t st)), st).
Proof.
  intros HP. unfold execute; simpl. do 2 f_equal. by apply list_filter_iff.
Qed.

Lemma execute_delete_iff t fs P `{∀ r, Decision (P r)} st :
  (∀ r, matches fs r ↔ P r) →
  execute (mkQuery _ _ t Delete fs) st
  = (Returned (filter P (rows t st)),
     set_rows t (filter (λ r, ¬ P r) (rows t st)) st).
Proof.
  intros HP. unfold execute; simpl. f_equal.
  - f_equal. by apply list_filter_iff.
  - f_equal. apply list_filter_iff. intros r. apply not_iff_compat, HP.
Qed.

Lemma execute_update_iff t patch fs P `{∀ r, Decision (P r)} st :
  patch_encodes patch = true →
  (∀ r, matches fs r ↔ P r) →
  execute (mkQuery _ _ t (Update patch) fs) st
  = (Returned (patch_set patch <$> filter P (rows t st)),
     set_rows t ((λ r, if decide (P r) then patch_set patch r else r)
                   <$> rows t st) st).
Proof.
  intros Hok HP. unfold execute; simpl. rewrite Hok. f_equal.
  - do 2 f_equal. by apply list_filter_iff.
  - f_equal. apply list_fmap_ext. intros _ r _.
    specialize (HP r). destruct (matches fs r); case_decide as HPr; try done.
    + exfalso. apply HPr, HP. done.
    + apply HP in HPr. done.
Qed.

Lemma execute_select_all t st :
  execute (select t) st = (Returned (rows t st), st).
Proof.
  unfold select. rewrite (execute_select_iff _ _ (λ _, True)) by done.
  do 2 f_equal. induction (rows t st) as [|r l IH]; [done|].
  rewrite filter_cons_True by done. by rewrite IH.
Qed.

Lemma execute_select_eq {V} `{EqDecision V} t (col : Row → V) v st :
  execute (eq_ col v (select t)) st
  = (Returned (filter (λ r, col r = v) (rows t st)), st).
Proof. apply execute_select_iff. intros r. apply matches_eq1. Qed.

Lemma execute_select_eq2 {V W} `{EqDecision V, EqDecision W}
    t (col1 : Row → V) v (col2 : Row → W) w st :
  execute (eq_ col2 w (eq_ col1 v (select t))) st
  = (Returned (filter (λ r, col1 r = v ∧ col2 r = w) (rows t st)), st).
Proof. apply execute_select_iff. intros r. apply matches_eq2. Qed.

Lemma execute_delete_eq {V} `{EqDecision V} t (col : Row → V) v st :
  execute (eq_ col v (delete t)) st
  = (Returned (filter (λ r, col r = v) (rows t st)),
     set_rows t (filter (λ r, col r ≠ v) (rows t st)) st).
Proof.
  apply (execute_delete_iff _ _ (λ r, col r = v)). intros r. apply matches_eq1.
Qed.

Lemma execute_delete_eq2 {V W} `{EqDecision V, EqDecision W}
    t (col1 : Row → V) v (col2 : Row → W) w st :
  execute (eq_ col2 w (eq_ col1 v (delete t))) st
  = (Returned (filter (λ r, col1 r = v ∧ col2 r = w) (rows t st)),
     set_rows t (filter (λ r, ¬ (col1 r = v ∧ col2 r = w)) (rows t st)) st).
Proof. apply execute_delete_iff. intros r. apply matches_eq2. Qed.

Lemma execute_update_eq2 {V W} `{EqDecision V, EqDecision W}
    t patch (col1 : Row → V) v (col2 : Row → W) w st :
  patch_encodes patch = true →
  execute (eq_ col2 w (eq_ col1 v (update t patch))) st
  = (Returned (patch_set patch
                 <$> filter (λ r, col1 r = v ∧ col2 r = w) (rows t st)),
     set_rows t ((λ r, if decide (col1 r = v ∧ col2 r = w)
                       then patch_set patch r else r)
                   <$> rows t st) st).
Proof.
  intros Hok. apply execute_update_iff; [done|]. intros r. apply matches_eq2.
Qed.

Lemma execute_update_unencodable (q : Query Payload Row) patch st :
  q_verb q = Update patch →
  patch_encodes patch = false →
  execute q st = (Raised ValueError, st).
Proof. intros Hq Hok. unfold execute. by rewrite Hq, Hok. Qed.

End Queries.

(** ** Truthiness of query results *)

Lemma py_bool_list_filter {A} (P : A → Prop) `{∀ x, Decision (P x)}
    (l : list A) :
  py_bool_list (filter P l) ↔ ∃ x, x ∈ l ∧ P x.
Proof.
  split.
  - destruct (filter P l) as [|x l'] eqn:E; [done|]. intros _.
    assert (x ∈ filter P l) as Hx by (rewrite E; left).
    apply list_elem_of_filter in Hx. exists x. tauto.
  - intros (x & Hx & HP).
    assert (x ∈ filter P l) as Hin by (by apply list_elem_of_filter).
    by destruct Hin.
Qed.

Lemma py_bool_list_filter_false {A} (P : A → Prop) `{∀ x, Decision (P x)}
    (l : list A) :
  py_bool_list (filter P l) = false ↔ ¬ ∃ x, x ∈ l ∧ P x.
Proof.
  rewrite <- py_bool_list_filter. apply symmetry, Is_true_false.
Qed.

Lemma py_bool_list_filter_true {A} (P : A → Prop) `{∀ x, Decision (P x)}
    (l : list A) :
  py_bool_list (filter P l) = true ↔ ∃ x, x ∈ l ∧ P x.
Proof. rewrite <- py_bool_list_filter. apply symmetry, Is_true_true. Qed.

(** ** create_enrollment *)

Lemma create_enrollment_no_student e st :
  ¬ student_exists (student_id e) st →
  create_enrollment e st = (Raised (HTTPException 404 "Student not found"), st).
Proof.
  intros Hs. unfold create_enrollment, bind.
  rewrite !execute_select_eq. cbn [rows students courses].
  apply (py_bool_list_filter_false (λ s, s_id s = student_id e)) in Hs.
  by rewrite Hs.
Qed.

Lemma create_enrollment_no_course e st :
  student_exists (student_id e) st →
  ¬ course_exists (course_id e) st →
  create_enrollment e st = (Raised (HTTPException 404 "Course not found"), st).
Proof.
  intros Hs Hc. unfold create_enrollment, bind.
  rewrite !execute_select_eq. cbn [rows students courses].
  apply (py_bool_list_filter_true (λ s, s_id s = student_id e)) in Hs.
  apply (py_bool_list_filter_false (λ c, c_id c = course_id e)) in Hc.
  by rewrite Hs, Hc.
Qed.

Lemma create_enrollment_duplicate e st :
  student_exists (student_id e) st →
  course_exists (course_id e) st →
  enrolled (student_id e) (course_id e) st →
  create_enrollment e st
  = (Raised (HTTPException 400 "Student already enrolled in this course"), st).
Proof.
  intros Hs Hc He. unfold create_enrollment, bind.
  rewrite !execute_select_eq. cbn [rows students courses].
  apply (py_bool_list_filter_true (λ s, s_id s = student_id e)) in Hs.
  apply (py_bool_list_filter_true (λ c, c_id c = course_id e)) in Hc.
  rewrite Hs, Hc. cbn [negb].
  rewrite execute_select_eq2. cbn [rows enrollments].
  apply (py_bool_list_filter_true
           (λ x, student_id x = student_id e ∧ course_id x = course_id e)) in He.
  by rewrite He.
Qed.

Lemma create_enrollment_insert e st :
  student_exists (student_id e) st →
  course_exists (course_id e) st →
  ¬ enrolled (student_id e) (course_id e) st →
  create_enrollment e st
  = if enrollment_json_ok e
    then (Returned e, set_rows enrollments (db_enrollments st ++ [e]) st)
    else (Raised ValueError, st).
Proof.
  intros Hs Hc He. unfold create_enrollment, bind.
  rewrite !execute_select_eq. cbn [rows students courses].
  apply (py_bool_list_filter_true (λ s, s_id s = student_id e)) in Hs.
  apply (py_bool_list_filter_true (λ c, c_id c = course_id e)) in Hc.
  rewrite Hs, Hc. cbn [negb].
  rewrite execute_select_eq2. cbn [rows enrollments].
  apply (py_bool_list_filter_false
           (λ x, student_id x = student_id e ∧ course_id x = course_id e)) in He.
  rewrite He. unfold insert. cbn [encodes enrollments].
  by destruct (enrollment_json_ok e).
Qed.

Lemma create_enrollment_fresh e st :
  student_exists (student_id e) st →
  course_exists (course_id e) st →
  ¬ enrolled (student_id e) (course_id e) st →
  enrollment_json_ok e = true →
  create_enrollment e st
  = (Returned e, set_rows enrollments (db_enrollments st ++ [e]) st).
Proof.
  intros Hs Hc He Hok. by rewrite create_enrollment_insert, Hok.
Qed.

Lemma create_enrollment_unencodable e st :
  student_exists (student_id e) st →
  course_exists (course_id e) st →
  ¬ enrolled (student_id e) (course_id e) st →
  enrollment_json_ok e = false →
  create_enrollment e st = (Raised ValueError, st).
Proof.
  intros Hs Hc He Hok. by rewrite create_enrollment_insert, Hok.
Qed.

(** ** create_student *)

Lemma create_student_conflict b st :
  email_taken (sb_email b) st →
  create_student b st = (Raised (HTTPException 400 "Email already exists"), st).
Proof.
  intros He. unfold create_student, bind.
  rewrite execute_select_eq. cbn [rows students].
  apply (py_bool_list_filter_true (λ s, s_email s = sb_email b)) in He.
  by rewrite He.
Qed.

Lemma create_student_fresh b st :
  ¬ email_taken (sb_email b) st →
  create_student b st
  = (Returned {| s_id := students_seq st; s_name := sb_name b;
                 s_email := sb_email b |},
     {| db_students :=
          db_students st ++ [ {| s_id := students_seq st; s_name := sb_name b;
                                 s_email := sb_email b |} ];
        db_courses := db_courses st;
        db_enrollments := db_enrollments st;
        students_seq := students_seq st + 1;
        courses_seq := courses_seq st |}).
Proof.
  intros He. unfold create_student, bind.
  rewrite execute_select_eq. cbn [rows students].
  apply (py_bool_list_filter_false (λ s, s_email s = sb_email b)) in He.
  by rewrite He.
Qed.

(** ** delete_student, delete_course, delete_enrollment *)

Lemma delete_student_run sid st :
  delete_student sid st
  = (Returned {| message := "Student deleted" |},
     {| db_students := filter (λ s, s_id s ≠ sid) (db_students st);
        db_courses := db_courses st;
        db_enrollments := filter (λ e, student_id e ≠ sid) (db_enrollments st);
        students_seq := students_seq st;
        courses_seq := courses_seq st |}).
Proof.
  unfold delete_student, bind. by rewrite !execute_delete_eq.
Qed.

Lemma delete_course_run cid st :
  delete_course cid st
  = (Returned {| message := "Course deleted" |},
     {| db_students := db_students st;
        db_courses := filter (λ c, c_id c ≠ cid) (db_courses st);
        db_enrollments := filter (λ e, course_id e ≠ cid) (db_enrollments st);
        students_seq := students_seq st;
        courses_seq := courses_seq st |}).
Proof.
  unfold delete_course, bind. by rewrite !execute_delete_eq.
Qed.

Lemma delete_enrollment_run sid cid st :
  delete_enrollment sid cid st
  = (Returned {| message := "Enrollment deleted" |},
     set_rows enrollments
       (filter (λ e, ¬ (student_id e = sid ∧ course_id e = cid))
               (db_enrollments st)) st).
Proof.
  unfold delete_enrollment, bind. by rewrite execute_delete_eq2.
Qed.

Lemma filter_all {A} (P : A → Prop) `{∀ x, Decision (P x)} (l : list A) :
  (∀ x, x ∈ l → P x) → filter P l = l.
Proof.
  induction l as [|x l IH]; intros Hl; [done|].
  rewrite filter_cons_True by (apply Hl; left).
  f_equal. apply IH. intros y Hy. apply Hl. by right.
Qed.

Lemma filter_none {A} (P : A → Prop) `{∀ x, Decision (P x)} (l : list A) :
  (∀ x, x ∈ l → ¬ P x) → filter P l = [].
Proof.
  induction l as [|x l IH]; intros Hl; [done|].
  rewrite filter_cons_False by (apply Hl; left).
  apply IH. intros y Hy. apply Hl. by right.
Qed.

(** ** update_grade *)

Lemma update_grade_missing sid cid g st :
  ¬ enrolled sid cid st →
  update_grade sid cid g st
  = (Raised (HTTPException 404 "Enrollment not found"), st).
Proof.
  intros He. unfold update_grade, bind.
  rewrite execute_select_eq2. cbn [rows enrollments].
  apply (py_bool_list_filter_false
           (λ x, student_id x = sid ∧ course_id x = cid)) in He.
  by rewrite He.
Qed.

Lemma update_grade_unencodable sid cid g st :
  enrolled sid cid st →
  PyFloat.json_ok g = false →
  update_grade sid cid g st = (Raised ValueError, st).
Proof.
  intros He Hok. unfold update_grade, bind.
  rewrite execute_select_eq2. cbn [rows enrollments].
  apply (py_bool_list_filter_true
           (λ x, student_id x = sid ∧ course_id x = cid)) in He.
  rewrite He. cbn [negb].
  by rewrite (execute_update_unencodable _ (grade_patch g)).
Qed.

Lemma update_grade_found sid cid g st :
  enrolled sid cid st →
  PyFloat.json_ok g = true →
  update_grade sid cid g st
  = (Returned {| student_id := sid; course_id := cid; grade := Some g |},
     set_rows enrollments
       ((λ e, if decide (student_id e = sid ∧ course_id e = cid)
              then with_grade g e else e) <$> db_enrollments st) st).
Proof.
  intros He Hok. unfold update_grade, bind.
  rewrite execute_select_eq2. cbn [rows enrollments].
  pose proof He as Hb.
  apply (py_bool_list_filter_true
           (λ x, student_id x = sid ∧ course_id x = cid)) in Hb.
  rewrite Hb. cbn [negb]. rewrite execute_update_eq2 by done.
  cbn [rows enrollments patch_set grade_patch].
  destruct (filter _ (db_enrollments st)) as [|x l] eqn:E; [done|].
  assert (x ∈ filter (λ x, student_id x = sid ∧ course_id x = cid)
                     (db_enrollments st)) as Hx by (rewrite E; left).
  apply list_elem_of_filter in Hx as [[<- <-] _]. done.
Qed.

(** ** get_enrollments *)

Lemma get_enrollments_run sid cid st :
  get_enrollments sid cid st
  = (Returned (spec_listEnrollments (effective sid) (effective cid) st), st).
Proof.
  unfold get_enrollments, spec_listEnrollments, effective, py_bool_int.
  destruct sid as [s|], cid as [c|];
    repeat match goal with |- context [?k =? 0] => destruct (k =? 0) end;
    cbn [negb accepts].
  all: first
    [ rewrite execute_select_eq2
    | rewrite execute_select_eq
    | rewrite execute_select_all ];
    cbn [rows enrollments]; do 2 f_equal.
  all: try (apply list_filter_iff; intros e; tauto).
  all: symmetry; apply filter_all; done.
Qed.

Lemma effective_supplied key : key ≠ Some 0 → effective key = key.
Proof.
  destruct key as [k|]; [|done]. intros Hk. unfold effective.
  destruct (Z.eqb_spec k 0); [congruence|done].
Qed.

Lemma get_enrollments_supplied sid cid st :
  sid ≠ Some 0 → cid ≠ Some 0 →
  get_enrollments sid cid st = (Returned (spec_listEnrollments sid cid st), st).
Proof.
  intros Hs Hc. rewrite get_enrollments_run.
  by rewrite !effective_supplied.
Qed.

(** ** calculate_gpa *)

Lemma matches_graded sid (e : Enrollment) :
  matches [λ r, bool_decide (student_id r = sid);
           λ r, match grade r with Some _ => true | None => false end] e
  ↔ student_id e = sid ∧ is_Some (grade e).
Proof.
  unfold matches; simpl. rewrite andb_true_r, andb_True, bool_decide_spec.
  destruct (grade e); simpl; rewrite ?is_Some_alt; tauto.
Qed.

Lemma graded_rows sid (l : list Enrollment) :
  grade <$> filter (λ e, student_id e = sid ∧ is_Some (grade e)) l
  = Some <$> omap grade (filter (λ e, student_id e = sid) l).
Proof.
  induction l as [|e l IH]; [done|].
  rewrite !filter_cons. destruct (decide (student_id e = sid)) as [Hs|Hs].
  - destruct (grade e) as [g|] eqn:Hg.
    + rewrite decide_True by (split; [done|by eexists]).
      cbn. rewrite Hg. cbn. by rewrite IH.
    + rewrite decide_False by (intros [_ []]; done).
      cbn. rewrite Hg. done.
  - rewrite decide_False by tauto. done.
Qed.

Lemma sum_from_floats acc (gs : list float) :
  PyFloat.sum_from acc (Some <$> gs) = Returned (fold_left PrimFloat.add gs acc).
Proof.
  revert acc. induction gs as [|g gs IH]; intros acc; [done|]. cbn. apply IH.
Qed.

Lemma calculate_gpa_run sid st :
  calculate_gpa sid st
  = (Returned
       match graded sid st with
       | [] => {| gpa := 0%float; gpa_message := Some "No grades found" |}
       | _ :: _ =>
           {| gpa := PyFloat.round (mean (graded sid st)) 2;
              gpa_message := None |}
       end, st).
Proof.
  unfold calculate_gpa, bind, not_is_null, eq_, add_filter, select.
  cbn [q_table q_verb q_filters app].
  rewrite (execute_select_iff _ _
             (λ e, student_id e = sid ∧ is_Some (grade e)))
    by apply matches_graded.
  cbn [rows enrollments].
  pose proof (graded_rows sid (db_enrollments st)) as Hrows.
  fold (graded sid st) in Hrows.
  assert (length (filter (λ e, student_id e = sid ∧ is_Some (grade e))
                         (db_enrollments st))
          = length (graded sid st)) as Hlen.
  { rewrite <- (length_fmap grade), Hrows. apply length_fmap. }
  destruct (filter _ (db_enrollments st)) as [|e l] eqn:Hdata.
  - destruct (graded sid st); [done|discriminate].
  - destruct (graded sid st) as [|g gs] eqn:Hg; [discriminate|].
    cbn [py_bool_list negb]. unfold lift, PyFloat.sum.
    rewrite Hrows, sum_from_floats.
    unfold PyFloat.truediv. rewrite Hlen.
    destruct (Z.eqb_spec (Z.of_nat (length (g :: gs))) 0) as [H0|_];
      [discriminate H0|].
    done.
Qed.

(** ** The enrollment table after each request *)

Lemma enrolled_key e st :
  enrolled (student_id e) (course_id e) st
  ↔ enrollment_key e ∈ enrollment_key <$> db_enrollments st.
Proof.
  unfold enrolled, enrollment_key. rewrite list_elem_of_fmap. split.
  - intros (x & Hx & Hs & Hc). exists x. by rewrite Hs, Hc.
  - intros (x & Hk & Hx). exists x. by inversion Hk.
Qed.

Lemma unique_filter (P : Enrollment → Prop) `{∀ e, Decision (P e)}
    (l : list Enrollment) :
  NoDup (enrollment_key <$> l) → NoDup (enrollment_key <$> filter P l).
Proof.
  intros Hl. eapply sublist_NoDup; [exact Hl|].
  apply fmap_sublist, sublist_filter.
Qed.

Lemma keys_update (P : Enrollment → Prop) `{∀ e, Decision (P e)} g
    (l : list Enrollment) :
  enrollment_key <$> ((λ e, if decide (P e) then with_grade g e else e) <$> l)
  = enrollment_key <$> l.
Proof.
  rewrite <- list_fmap_compose. apply list_fmap_ext. intros _ e _.
  simpl. by case_decide.
Qed.

Lemma create_student_enrollments b st :
  db_enrollments (snd (create_student b st)) = db_enrollments st.
Proof.
  destruct (decide (email_taken (sb_email b) st)).
  - by rewrite create_student_conflict.
  - by rewrite create_student_fresh.
Qed.

Lemma create_enrollment_enrollments e st :
  db_enrollments (snd (create_enrollment e st)) = db_enrollments st
  ∨ (¬ enrolled (student_id e) (course_id e) st
     ∧ db_enrollments (snd (create_enrollment e st)) = db_enrollments st ++ [e]).
Proof.
  destruct (decide (student_exists (student_id e) st));
    [|left; by rewrite create_enrollment_no_student].
  destruct (decide (course_exists (course_id e) st));
    [|left; by rewrite create_enrollment_no_course].
  destruct (decide (enrolled (student_id e) (course_id e) st)).
  - left. by rewrite create_enrollment_duplicate.
  - rewrite create_enrollment_insert by done.
    destruct (enrollment_json_ok e); [by right|by left].
Qed.

Lemma update_grade_keys sid cid g st :
  enrollment_key <$> db_enrollments (snd (update_grade sid cid g st))
  = enrollment_key <$> db_enrollments st.
Proof.
  destruct (decide (enrolled sid cid st)); [|by rewrite update_grade_missing].
  destruct (PyFloat.json_ok g) eqn:Hok;
    [|by rewrite update_grade_unencodable].
  rewrite update_grade_found by done.
  cbn [snd set_rows enrollments db_enrollments].
  apply (keys_update (λ e, student_id e = sid ∧ course_id e = cid)).
Qed.

Lemma serve_unique r st :
  unique_enrollments st → unique_enrollments (serve r st).
Proof.
  unfold unique_enrollments. intros Hst.
  destruct r as [b| |sid|b| |cid|e|sid cid|sid cid g|sid cid|sid]; cbn [serve].
  - by rewrite create_student_enrollments.
  - unfold get_students. by rewrite execute_select_all.
  - rewrite delete_student_run. by apply unique_filter.
  - done.
  - unfold get_courses. by rewrite execute_select_all.
  - rewrite delete_course_run. by apply unique_filter.
  - destruct (create_enrollment_enrollments e st) as [->|[Hne ->]]; [done|].
    rewrite fmap_app. apply NoDup_app. split; [done|]. split.
    + intros k Hk Hin. apply Hne, enrolled_key.
      apply list_elem_of_fmap in Hin as (x & -> & Hx).
      apply list_elem_of_singleton in Hx as ->. done.
    + apply NoDup_singleton.
  - by rewrite get_enrollments_run.
  - by rewrite update_grade_keys.
  - rewrite delete_enrollment_run. by apply unique_filter.
  - by rewrite calculate_gpa_run.
Qed.

(** The invariant read row by row: two positions of the table that hold
    the same pair are the same position. *)
Lemma unique_enrollments_rows st :
  unique_enrollments st →
  ∀ i j e1 e2,
    db_enrollments st !! i = Some e1 →
    db_enrollments st !! j = Some e2 →
    student_id e1 = student_id e2 → course_id e1 = course_id e2 →
    i = j.
Proof.
  unfold unique_enrollments. rewrite NoDup_alt.
  intros Hst i j e1 e2 Hi Hj Hs Hc.
  apply (Hst i j (enrollment_key e1)); rewrite list_lookup_fmap.
  - by rewrite Hi.
  - rewrite Hj. unfold enrollment_key. simpl. by rewrite Hs, Hc.
Qed.

(** ** Facts about a concrete store

    A closed fact about a store given by its rows is settled by running its
    decision procedure. *)

Ltac by_running := apply (bool_decide_unpack _); vm_compute; exact I.

(** ** The rounding of [round(x, 2)] on a few values *)

Example round_exact : PyFloat.round 3.5 2 = 3.5%float.
Proof. reflexivity. Qed.

Example round_below_half : PyFloat.round 2.675 2 = 2.67%float.
Proof. reflexivity. Qed.

Example round_tie_to_even :
  PyFloat.round 0.125 2 = 0.12%float ∧ PyFloat.round 0.375 2 = 0.38%float.
Proof. split; reflexivity. Qed.

Example round_third : PyFloat.round (1 / 3) 2 = 0.33%float.
Proof. reflexivity. Qed.

Example sample_store_rows :
  db_enrollments sample_store
  = [ {| student_id := 1; course_id := 1; grade := Some 3%float |};
      {| student_id := 1; course_id := 2; grade := Some 4%float |};
      {| student_id := 1; course_id := 3; grade := None |} ]
  ∧ s_id <$> db_students sample_store = [1; 2]
  ∧ c_id <$> db_courses sample_store = [1; 2; 3].
Proof. split; [reflexivity|]. split; reflexivity. Qed.

(** ** The claims *)

(** C1 (as amended). For every student_id, [calculate_gpa] selects the
    student's enrollments whose grade is non-null.  If there are none it
    returns, without raising, the sentinel [{gpa: 0.0, message: "No grades
    found"}]; otherwise it returns the mean of those non-null grades (their
    sum over their count, in binary64 arithmetic) rounded to 2 decimals.
    Enrollments with a null grade count neither in the sum nor in the
    count, and the store is left as it was. *)
Theorem calculate_gpa_mean_of_graded (sid : Z) (st : Store) :
  (graded sid st = [] →
     calculate_gpa sid st
     = (Returned {| gpa := 0%float; gpa_message := Some "No grades found" |},
        st))
  ∧ (graded sid st ≠ [] →
     calculate_gpa sid st
     = (Returned {| gpa := PyFloat.round (mean (graded sid st)) 2;
                    gpa_message := None |}, st)).
Proof.
  rewrite calculate_gpa_run. split; intros Hg.
  - by rewrite Hg.
  - by destruct (graded sid st).
Qed.

Lemma calculate_gpa_mean_of_graded_witness :
  calculate_gpa 2 sample_store
  = (Returned {| gpa := 0%float; gpa_message := Some "No grades found" |},
     sample_store)
  ∧ calculate_gpa 1 sample_store
    = (Returned {| gpa := 3.5%float; gpa_message := None |}, sample_store).
Proof.
  split.
  - apply (calculate_gpa_mean_of_graded 2 sample_store). reflexivity.
  - apply (calculate_gpa_mean_of_graded 1 sample_store). vm_compute. discriminate.
Defined.

(** C1 as the specification words it fails: with no graded enrollment the
    message of the sentinel is "No grades found", not "no grades found". *)
Lemma calculate_gpa_sentinel_counterexample :
  graded 2 sample_store = []
  ∧ calculate_gpa 2 sample_store
    ≠ (Returned {| gpa := 0%float; gpa_message := Some "no grades found" |},
       sample_store).
Proof.
  split; [reflexivity|]. rewrite calculate_gpa_run.
  change (graded 2 sample_store) with (@nil float). intros H.
  inversion H.
Qed.

(** C2 (as amended). [create_enrollment] raises 404 "Student not found"
    when no student has the given student_id, whatever the course_id; raises
    404 "Course not found" when the student exists and no course has the
    given course_id; raises 400 when both exist and an enrollment for the
    same (student_id, course_id) pair is stored; and otherwise, when the
    grade is absent or a finite number, appends the enrollment to the table
    and returns the inserted record.  The three error paths leave the store
    as it was.  (What a NaN or infinite grade does is
    [create_enrollment_unencodable].) *)
Theorem create_enrollment_outcomes (e : Enrollment) (st : Store) :
  (¬ student_exists (student_id e) st →
     create_enrollment e st
     = (Raised (HTTPException 404 "Student not found"), st))
  ∧ (student_exists (student_id e) st →
     ¬ course_exists (course_id e) st →
     create_enrollment e st
     = (Raised (HTTPException 404 "Course not found"), st))
  ∧ (student_exists (student_id e) st →
     course_exists (course_id e) st →
     enrolled (student_id e) (course_id e) st →
     create_enrollment e st
     = (Raised (HTTPException 400 "Student already enrolled in this course"),
        st))
  ∧ (student_exists (student_id e) st →
     course_exists (course_id e) st →
     ¬ enrolled (student_id e) (course_id e) st →
     enrollment_json_ok e = true →
     create_enrollment e st
     = (Returned e, set_rows enrollments (db_enrollments st ++ [e]) st)).
Proof.
  split; [apply create_enrollment_no_student|].
  split; [apply create_enrollment_no_course|].
  split; [apply create_enrollment_duplicate|apply create_enrollment_fresh].
Qed.

Lemma create_enrollment_outcomes_witness :
  let ghost := {| student_id := 5; course_id := 9; grade := None |} in
  let lost := {| student_id := 2; course_id := 9; grade := None |} in
  let again := {| student_id := 1; course_id := 2; grade := Some 2%float |} in
  let fresh := {| student_id := 2; course_id := 2; grade := Some 2%float |} in
  let blank := {| student_id := 2; course_id := 1; grade := None |} in
  fst (create_enrollment ghost sample_store)
  = Raised (HTTPException 404 "Student not found")
  ∧ fst (create_enrollment lost sample_store)
    = Raised (HTTPException 404 "Course not found")
  ∧ fst (create_enrollment again sample_store)
    = Raised (HTTPException 400 "Student already enrolled in this course")
  ∧ create_enrollment fresh sample_store
    = (Returned fresh,
       set_rows enrollments (db_enrollments sample_store ++ [fresh])
                sample_store)
  ∧ fst (create_enrollment blank sample_store) = Returned blank.
Proof.
  intros ghost lost again fresh blank.
  destruct (create_enrollment_outcomes ghost sample_store) as (H1 & _).
  destruct (create_enrollment_outcomes lost sample_store) as (_ & H2 & _).
  destruct (create_enrollment_outcomes again sample_store) as (_ & _ & H3 & _).
  destruct (create_enrollment_outcomes fresh sample_store)
    as (_ & _ & _ & H4).
  destruct (create_enrollment_outcomes blank sample_store)
    as (_ & _ & _ & H5).
  split; [|split; [|split; [|split]]].
  - rewrite H1; [reflexivity|]. by_running.
  - rewrite H2; [reflexivity| |]; by_running.
  - rewrite H3; [reflexivity| | |]; by_running.
  - apply H4; first [by_running | reflexivity].
  - rewrite H5; first [by_running | reflexivity].
Defined.

(** C2 as the specification words it fails at a grade that is not finite:
    the student and the course exist and the pair is not enrolled, yet
    nothing is inserted and no record is returned. *)
Lemma create_enrollment_nonfinite_counterexample :
  let e := {| student_id := 2; course_id := 2; grade := Some infinity |} in
  student_exists (student_id e) sample_store
  ∧ course_exists (course_id e) sample_store
  ∧ ¬ enrolled (student_id e) (course_id e) sample_store
  ∧ create_enrollment e sample_store = (Raised ValueError, sample_store)
  ∧ fst (create_enrollment e sample_store) ≠ Returned e.
Proof.
  intros e. split; [by_running|]. split; [by_running|]. split; [by_running|].
  split; [reflexivity|]. discriminate.
Qed.

(** C3 at student_id = 0.  For keys that are absent or non-zero the
    listing is exactly the rows matching the supplied filters
    ([get_enrollments_supplied]).  With student_id = 0 supplied, the rows
    matching the filter are those whose student_id is 0 -- none in this
    store -- and [get_enrollments] returns the rows of every student. *)
Theorem get_enrollments_zero_key_lists_all :
  spec_listEnrollments (Some 0) None sample_store = []
  ∧ fst (get_enrollments (Some 0) None sample_store)
    = Returned (db_enrollments sample_store)
  ∧ db_enrollments sample_store ≠ [].
Proof.
  split; [reflexivity|]. split; [reflexivity|discriminate].
Qed.

(** C4. [create_student] raises 400 "Email already exists" when a stored
    student has the same email, compared exactly (so case matters), and
    leaves the store as it was; otherwise it appends one row to the students
    table and returns it: the row carries the name and the email of the
    input unchanged and the identity assigned by the store. *)
Theorem create_student_outcomes (student : StudentBase) (st : Store) :
  (email_taken (sb_email student) st →
     create_student student st
     = (Raised (HTTPException 400 "Email already exists"), st))
  ∧ (¬ email_taken (sb_email student) st →
     let st' := snd (create_student student st) in
     fst (create_student student st) = Returned (stored_student st student)
     ∧ s_email (stored_student st student) = sb_email student
     ∧ s_id (stored_student st student) = students_seq st
     ∧ db_students st' = db_students st ++ [stored_student st student]
     ∧ db_courses st' = db_courses st
     ∧ db_enrollments st' = db_enrollments st).
Proof.
  split; [apply create_student_conflict|].
  intros Hfresh. rewrite create_student_fresh by done. done.
Qed.

Lemma create_student_outcomes_witness :
  fst (create_student {| sb_name := "Ada L"; sb_email := "ada@example.org" |}
                      sample_store)
  = Raised (HTTPException 400 "Email already exists")
  ∧ fst (create_student {| sb_name := "Ada L"; sb_email := "Ada@example.org" |}
                        sample_store)
    = Returned {| s_id := 3; s_name := "Ada L"; s_email := "Ada@example.org" |}.
Proof.
  split.
  - rewrite (proj1 (create_student_outcomes _ sample_store)); [reflexivity|].
    by_running.
  - apply (proj2 (create_student_outcomes
                    {| sb_name := "Ada L"; sb_email := "Ada@example.org" |}
                    sample_store)).
    by_running.
Defined.

(** C5. [delete_student] never raises and always returns the confirmation
    message.  It removes every enrollment whose student_id is the given id,
    for all courses, and then the student rows with that id; courses are
    untouched.  Afterwards the store query on that student_id selects no
    row, for every id, and [get_enrollments] called with a non-zero id
    returns the empty list whatever the course filter. *)
Theorem delete_student_cascade (sid : Z) (st : Store) :
  let st' := snd (delete_student sid st) in
  fst (delete_student sid st) = Returned {| message := "Student deleted" |}
  ∧ db_enrollments st' = filter (λ e, student_id e ≠ sid) (db_enrollments st)
  ∧ db_students st' = filter (λ s, s_id s ≠ sid) (db_students st)
  ∧ db_courses st' = db_courses st
  ∧ fst (execute (eq_ student_id sid (select enrollments)) st') = Returned []
  ∧ (sid ≠ 0 → ∀ cid, fst (get_enrollments (Some sid) cid st') = Returned []).
Proof.
  rewrite delete_student_run. cbn [fst snd db_enrollments db_students db_courses].
  do 4 (split; [done|]).
  assert (∀ (P : Enrollment → Prop) `{∀ e, Decision (P e)},
            (∀ e, P e → student_id e = sid) →
            filter P (filter (λ e, student_id e ≠ sid) (db_enrollments st)) = [])
    as Hgone.
  { intros P HP HPs. apply filter_none. intros e He HPe.
    apply list_elem_of_filter in He as [Hne _]. by apply Hne, HPs. }
  split.
  - rewrite execute_select_eq. cbn [fst rows enrollments db_enrollments].
    f_equal. by apply Hgone.
  - intros Hsid cid. rewrite get_enrollments_run.
    unfold spec_listEnrollments. cbn [fst db_enrollments]. f_equal.
    apply Hgone. intros e [He _]. unfold effective in He.
    destruct (Z.eqb_spec sid 0); [done|]. exact He.
Qed.

Lemma delete_student_cascade_witness :
  fst (get_enrollments (Some 1) None (snd (delete_student 1 sample_store)))
  = Returned []
  ∧ fst (delete_student 7 sample_store)
    = Returned {| message := "Student deleted" |}.
Proof.
  destruct (delete_student_cascade 1 sample_store) as (_ & _ & _ & _ & _ & Hq).
  destruct (delete_student_cascade 7 sample_store) as (Hmsg & _).
  split.
  - apply Hq. lia.
  - exact Hmsg.
Defined.

(** C6 (as amended). [update_grade] raises 404 "Enrollment not found",
    leaving the store as it was, when no enrollment is stored for the pair.
    Otherwise, when the grade is a finite number, it returns the record of
    that pair with the grade set to the input grade exactly; in the table the
    rows of the pair get that grade, their student_id and course_id stay as
    they were, every other row and the other tables are unchanged.  (What a
    NaN or infinite grade does on an enrolled pair is
    [update_grade_unencodable].) *)
Theorem update_grade_outcomes (sid cid : Z) (g : float) (st : Store) :
  (¬ enrolled sid cid st →
     update_grade sid cid g st
     = (Raised (HTTPException 404 "Enrollment not found"), st))
  ∧ (enrolled sid cid st →
     PyFloat.json_ok g = true →
     let st' := snd (update_grade sid cid g st) in
     fst (update_grade sid cid g st)
     = Returned {| student_id := sid; course_id := cid; grade := Some g |}
     ∧ db_enrollments st'
       = (λ e, if decide (student_id e = sid ∧ course_id e = cid)
               then {| student_id := student_id e; course_id := course_id e;
                       grade := Some g |}
               else e) <$> db_enrollments st
     ∧ enrollment_key <$> db_enrollments st'
       = enrollment_key <$> db_enrollments st
     ∧ {| student_id := sid; course_id := cid; grade := Some g |}
         ∈ db_enrollments st'
     ∧ db_students st' = db_students st
     ∧ db_courses st' = db_courses st).
Proof.
  split; [apply update_grade_missing|].
  intros He Hok. pose proof (update_grade_keys sid cid g st) as Hkeys.
  rewrite update_grade_found in * by done.
  cbn [fst snd set_rows enrollments db_enrollments db_students db_courses] in *.
  do 3 (split; [done|]). split; [|done].
  destruct He as (e & He & Hs & Hc).
  apply list_elem_of_fmap. exists e. split; [|done].
  rewrite decide_True by done. unfold with_grade. by rewrite Hs, Hc.
Qed.

Lemma update_grade_outcomes_witness :
  fst (update_grade 2 2 3.7 sample_store)
  = Raised (HTTPException 404 "Enrollment not found")
  ∧ fst (update_grade 1 2 3.7 sample_store)
    = Returned {| student_id := 1; course_id := 2; grade := Some 3.7%float |}.
Proof.
  destruct (update_grade_outcomes 2 2 3.7 sample_store) as (H1 & _).
  destruct (update_grade_outcomes 1 2 3.7 sample_store) as (_ & H2).
  split.
  - rewrite H1; [reflexivity|]. by_running.
  - apply H2; first [by_running | reflexivity].
Defined.

(** C6 as the specification words it fails at a grade that is not finite:
    the pair is enrolled, yet no updated record is returned and the stored
    grade stays 4.0. *)
Lemma update_grade_nonfinite_counterexample :
  enrolled 1 2 sample_store
  ∧ update_grade 1 2 infinity sample_store = (Raised ValueError, sample_store)
  ∧ fst (update_grade 1 2 infinity sample_store)
    ≠ Returned {| student_id := 1; course_id := 2; grade := Some infinity |}
  ∧ {| student_id := 1; course_id := 2; grade := Some 4%float |}
      ∈ db_enrollments (snd (update_grade 1 2 infinity sample_store)).
Proof.
  split; [by_running|]. split; [reflexivity|]. split; [discriminate|].
  apply list_elem_of_In. vm_compute. right. left. reflexivity.
Qed.

(** The grade written by [update_grade] is the one the next GPA sees. *)
Example update_grade_then_gpa :
  fst (calculate_gpa 1 (snd (update_grade 1 2 3.5 sample_store)))
  = Returned {| gpa := 3.25%float; gpa_message := None |}.
Proof. reflexivity. Qed.

(** C7. When no student has the given student_id, [create_enrollment]
    raises 404 "Student not found" and the store is left as it was, so no
    enrollment row is created; this does not depend on the course_id, which
    may be that of a stored course. *)
Theorem create_enrollment_unknown_student (e : Enrollment) (st : Store) :
  ¬ student_exists (student_id e) st →
  fst (create_enrollment e st) = Raised (HTTPException 404 "Student not found")
  ∧ snd (create_enrollment e st) = st
  ∧ db_enrollments (snd (create_enrollment e st)) = db_enrollments st.
Proof.
  intros Hs. by rewrite create_enrollment_no_student.
Qed.

Lemma create_enrollment_unknown_student_witness :
  let e := {| student_id := 5; course_id := 2; grade := Some 4%float |} in
  course_exists (course_id e) sample_store
  ∧ fst (create_enrollment e sample_store)
    = Raised (HTTPException 404 "Student not found")
  ∧ snd (create_enrollment e sample_store) = sample_store
  ∧ db_enrollments (snd (create_enrollment e sample_store))
    = db_enrollments sample_store.
Proof.
  intros e. split.
  - by_running.
  - apply (create_enrollment_unknown_student e sample_store).
    by_running.
Defined.

(** C8. Every request of the HTTP surface preserves "at most one
    enrollment per (student_id, course_id) pair": a create passes the
    duplicate check before it inserts, a grade update keeps the keys of all
    rows, and the deletes only remove rows.  Hence every store reached from
    the empty store through requests holds at most one enrollment per pair:
    two rows with the same student_id and course_id are the same row. *)
Theorem enrollment_pairs_unique :
  (∀ r st, unique_enrollments st → unique_enrollments (serve r st))
  ∧ (∀ st, reachable st → unique_enrollments st)
  ∧ (∀ st, reachable st →
     ∀ i j e1 e2,
       db_enrollments st !! i = Some e1 →
       db_enrollments st !! j = Some e2 →
       student_id e1 = student_id e2 → course_id e1 = course_id e2 →
       i = j).
Proof.
  assert (∀ st, reachable st → unique_enrollments st) as Hreach.
  { induction 1 as [|r st _ IH].
    - apply NoDup_nil_2.
    - by apply serve_unique. }
  split; [apply serve_unique|]. split; [exact Hreach|].
  intros st Hst. by apply unique_enrollments_rows, Hreach.
Qed.

Lemma enrollment_pairs_unique_witness :
  reachable sample_store ∧ unique_enrollments sample_store.
Proof.
  assert (reachable sample_store) as Hreach.
  { unfold sample_store. cbn [foldl].
    repeat apply reachable_serve. apply reachable_empty. }
  split; [exact Hreach|].
  destruct enrollment_pairs_unique as (_ & Hunique & _).
  apply (Hunique sample_store Hreach).
Defined.

(** C9. [delete_enrollment] never raises and always returns the
    confirmation message.  It removes the rows of the given (student_id,
    course_id) pair and no other row, so that no enrollment for the pair
    remains; when none was stored, the store is left exactly as it was. *)
Theorem delete_enrollment_outcomes (sid cid : Z) (st : Store) :
  let st' := snd (delete_enrollment sid cid st) in
  fst (delete_enrollment sid cid st)
  = Returned {| message := "Enrollment deleted" |}
  ∧ db_enrollments st'
    = filter (λ e, ¬ (student_id e = sid ∧ course_id e = cid))
             (db_enrollments st)
  ∧ ¬ enrolled sid cid st'
  ∧ db_students st' = db_students st
  ∧ db_courses st' = db_courses st
  ∧ (¬ enrolled sid cid st → st' = st).
Proof.
  rewrite delete_enrollment_run.
  cbn [fst snd set_rows enrollments db_enrollments db_students db_courses].
  do 2 (split; [done|]). split; [|do 2 (split; [done|])].
  - intros (e & He & Hs & Hc). cbn [db_enrollments] in He.
    apply list_elem_of_filter in He as [Hne _]. by apply Hne.
  - intros Hne. rewrite filter_all; [by destruct st|].
    intros e He [Hs Hc]. apply Hne. by exists e.
Qed.

Lemma delete_enrollment_outcomes_witness :
  delete_enrollment 2 2 sample_store
  = (Returned {| message := "Enrollment deleted" |}, sample_store).
Proof.
  destruct (delete_enrollment_outcomes 2 2 sample_store)
    as (Hmsg & _ & _ & _ & _ & Hsame).
  rewrite (surjective_pairing (delete_enrollment 2 2 sample_store)).
  rewrite Hmsg, Hsame; [reflexivity|].
  by_running.
Defined.

(** C10. [get_enrollments] treats a key of 0 as a key that was not
    supplied: with student_id = 0, or with course_id = 0, no equality
    filter is applied for that key, and the result is the one of the call
    without the parameter; with both keys 0 every row is returned. *)
Theorem get_enrollments_zero_is_absent (key : option Z) (st : Store) :
  get_enrollments (Some 0) key st = get_enrollments None key st
  ∧ get_enrollments key (Some 0) st = get_enrollments key None st
  ∧ get_enrollments (Some 0) (Some 0) st = (Returned (db_enrollments st), st).
Proof.
  split; [reflexivity|]. split; [reflexivity|].
  change (get_enrollments (Some 0) (Some 0) st)
    with (execute (select enrollments) st).
  apply execute_select_all.
Qed.

(** * Beyond the integrity rules: the remaining handlers and how requests
      compose *)

(** ** Each handler as one step on the store *)

Lemma create_course_run c st :
  create_course c st
  = (Returned (stored_course st c),
     {| db_students := db_students st;
        db_courses := db_courses st ++ [stored_course st c];
        db_enrollments := db_enrollments st;
        students_seq := students_seq st;
        courses_seq := courses_seq st + 1 |}).
Proof. reflexivity. Qed.

Lemma create_student_cases b st :
  (email_taken (sb_email b) st
   ∧ create_student b st
     = (Raised (HTTPException 400 "Email already exists"), st))
  ∨ (¬ email_taken (sb_email b) st
     ∧ fst (create_student b st) = Returned (stored_student st b)
     ∧ db_students (snd (create_student b st))
       = db_students st ++ [stored_student st b]
     ∧ db_courses (snd (create_student b st)) = db_courses st
     ∧ db_enrollments (snd (create_student b st)) = db_enrollments st).
Proof.
  destruct (decide (email_taken (sb_email b) st)) as [He|He].
  - left. split; [done|]. by apply create_student_conflict.
  - right. split; [done|]. by rewrite create_student_fresh.
Qed.

Lemma create_enrollment_cases e st :
  (∃ x,
     create_enrollment e st = (Raised x, st)
     ∧ ((x = ValueError ∧ enrollment_json_ok e = false)
        ∨ ∃ code detail,
            x = HTTPException code detail ∧ (code = 400 ∨ code = 404)))
  ∨ (student_exists (student_id e) st
     ∧ course_exists (course_id e) st
     ∧ ¬ enrolled (student_id e) (course_id e) st
     ∧ enrollment_json_ok e = true
     ∧ create_enrollment e st
       = (Returned e, set_rows enrollments (db_enrollments st ++ [e]) st)).
Proof.
  destruct (decide (student_exists (student_id e) st)) as [Hs|Hs].
  2:{ left. eexists. split; [by apply create_enrollment_no_student|].
      right. do 2 eexists. split; [done|by right]. }
  destruct (decide (course_exists (course_id e) st)) as [Hc|Hc].
  2:{ left. eexists. split; [by apply create_enrollment_no_course|].
      right. do 2 eexists. split; [done|by right]. }
  destruct (decide (enrolled (student_id e) (course_id e) st)) as [He|He].
  { left. eexists. split; [by apply create_enrollment_duplicate|].
    right. do 2 eexists. split; [done|by left]. }
  destruct (enrollment_json_ok e) eqn:Hok.
  - right. do 4 (split; [done|]). by apply create_enrollment_fresh.
  - left. eexists. split; [by apply create_enrollment_unencodable|].
    by left.
Qed.

Lemma update_grade_cases sid cid g st :
  (∃ x,
     update_grade sid cid g st = (Raised x, st)
     ∧ ((x = ValueError ∧ PyFloat.json_ok g = false)
        ∨ x = HTTPException 404 "Enrollment not found"))
  ∨ (enrolled sid cid st
     ∧ PyFloat.json_ok g = true
     ∧ update_grade sid cid g st
       = (Returned {| student_id := sid; course_id := cid; grade := Some g |},
          set_rows enrollments
            ((λ e, if decide (student_id e = sid ∧ course_id e = cid)
                   then with_grade g e else e) <$> db_enrollments st) st)).
Proof.
  destruct (decide (enrolled sid cid st)) as [He|He].
  2:{ left. eexists. split; [by apply update_grade_missing|]. by right. }
  destruct (PyFloat.json_ok g) eqn:Hok.
  - right. do 2 (split; [done|]). by apply update_grade_found.
  - left. eexists. split; [by apply update_grade_unencodable|]. by left.
Qed.

Lemma create_enrollment_frame e st :
  db_students (snd (create_enrollment e st)) = db_students st
  ∧ db_courses (snd (create_enrollment e st)) = db_courses st.
Proof.
  destruct (create_enrollment_cases e st)
    as [(x & -> & _)|(_ & _ & _ & _ & ->)]; done.
Qed.

Lemma update_grade_frame sid cid g st :
  db_students (snd (update_grade sid cid g st)) = db_students st
  ∧ db_courses (snd (update_grade sid cid g st)) = db_courses st.
Proof.
  destruct (update_grade_cases sid cid g st)
    as [(x & -> & _)|(_ & _ & ->)]; done.
Qed.

(** Membership of a store in the three conditions only depends on the
    rows. *)
Lemma student_exists_rows sid st st' :
  db_students st' = db_students st →
  student_exists sid st' ↔ student_exists sid st.
Proof. unfold student_exists. by intros ->. Qed.

Lemma course_exists_rows cid st st' :
  db_courses st' = db_courses st →
  course_exists cid st' ↔ course_exists cid st.
Proof. unfold course_exists. by intros ->. Qed.


Lemma delete_enrollment_not_enrolled sid cid st :
  ¬ enrolled sid cid (snd (delete_enrollment sid cid st)).
Proof.
  rewrite delete_enrollment_run. intros (e & He & Hs & Hc).
  cbn [snd set_rows enrollments db_enrollments] in He.
  apply list_elem_of_filter in He as [Hne _]. by apply Hne.
Qed.

Lemma delete_student_not_exists sid st :
  ¬ student_exists sid (snd (delete_student sid st)).
Proof.
  rewrite delete_student_run. intros (s & Hs & Hid).
  cbn [snd db_students] in Hs.
  apply list_elem_of_filter in Hs as [Hne _]. by apply Hne.
Qed.

Lemma delete_course_not_exists cid st :
  ¬ course_exists cid (snd (delete_course cid st)).
Proof.
  rewrite delete_course_run. intros (c & Hc & Hid).
  cbn [snd db_courses] in Hc.
  apply list_elem_of_filter in Hc as [Hne _]. by apply Hne.
Qed.

Lemma filter_filter_same {A} (P : A → Prop) `{∀ x, Decision (P x)}
    (l : list A) :
  filter P (filter P l) = filter P l.
Proof.
  apply filter_all. intros x Hx. by apply list_elem_of_filter in Hx as [? _].
Qed.

(** ** Courses *)

(** X1. [delete_course] never raises and always returns its message.  It
    removes every enrollment of the course, for all students, and then the
    course rows with that id; students are untouched.  Afterwards the course
    does not exist, no student is enrolled in it, and [get_enrollments]
    called with that course_id, when it is not 0, returns the empty list
    whatever the student filter. *)
Theorem delete_course_cascade (cid : Z) (st : Store) :
  let st' := snd (delete_course cid st) in
  fst (delete_course cid st) = Returned {| message := "Course deleted" |}
  ∧ db_enrollments st' = filter (λ e, course_id e ≠ cid) (db_enrollments st)
  ∧ db_courses st' = filter (λ c, c_id c ≠ cid) (db_courses st)
  ∧ db_students st' = db_students st
  ∧ ¬ course_exists cid st'
  ∧ (∀ sid, ¬ enrolled sid cid st')
  ∧ (cid ≠ 0 → ∀ sid, fst (get_enrollments sid (Some cid) st') = Returned []).
Proof.
  pose proof (delete_course_not_exists cid st) as Hgone.
  rewrite delete_course_run in *.
  cbn [fst snd db_enrollments db_students db_courses] in *.
  do 4 (split; [done|]). split; [done|]. split.
  - intros sid (e & He & _ & Hc). cbn [db_enrollments] in He.
    apply list_elem_of_filter in He as [Hne _]. by apply Hne.
  - intros Hcid sid. rewrite get_enrollments_run.
    unfold spec_listEnrollments. cbn [fst db_enrollments]. f_equal.
    apply filter_none. intros e He [_ Hc].
    apply list_elem_of_filter in He as [Hne _]. apply Hne.
    unfold effective in Hc. destruct (Z.eqb_spec cid 0); [done|]. exact Hc.
Qed.

Lemma delete_course_cascade_witness :
  fst (get_enrollments (Some 1) (Some 2) sample_store)
  = Returned [ {| student_id := 1; course_id := 2; grade := Some 4%float |} ]
  ∧ fst (get_enrollments (Some 1) (Some 2)
                         (snd (delete_course 2 sample_store)))
    = Returned [].
Proof.
  split; [reflexivity|].
  destruct (delete_course_cascade 2 sample_store) as (_ & _ & _ & _ & _ & _ & H).
  apply H. lia.
Defined.

(** X2. [create_course] inserts unconditionally: it never raises, whatever
    courses are stored, and the course it returns carries the name, the
    instructor and the prerequisites of the request, a list or [None].  The
    next [get_courses] lists that course together with the courses that
    were there, in some order.  Creating the same course twice stores it
    twice: no check on the name or on any other column stands in the way. *)
Theorem create_course_unconditional (course : CourseBase) (st : Store) :
  let st1 := snd (create_course course st) in
  let st2 := snd (create_course course st1) in
  (∃ c, fst (create_course course st) = Returned c
        ∧ c_name c = cb_name course
        ∧ c_instructor c = cb_instructor course
        ∧ c_prerequisites c = cb_prerequisites course
        ∧ ∃ rows1 rows2,
            fst (get_courses st1) = Returned rows1
            ∧ rows1 ≡ₚ c :: db_courses st
            ∧ fst (get_courses st2) = Returned rows2
            ∧ rows2 ≡ₚ stored_course st1 course :: c :: db_courses st)
  ∧ db_students st1 = db_students st
  ∧ db_enrollments st1 = db_enrollments st.
Proof.
  cbn zeta. unfold get_courses. rewrite !execute_select_all.
  rewrite !create_course_run. cbn [fst snd rows courses db_courses].
  split; [|done]. eexists. split; [reflexivity|]. do 3 (split; [done|]).
  do 2 eexists. split; [reflexivity|]. split; [|split; [reflexivity|]].
  - symmetry. apply Permutation_cons_append.
  - symmetry. etrans; [|apply Permutation_cons_append].
    constructor. apply Permutation_cons_append.
Qed.

(** ** Students *)

(** X3. A student created under a fresh email is listed by the next
    [get_students], together with the students that were there, in some
    order.  A create that fails on the email leaves the store, and so the
    students in it, as it was. *)
Theorem create_student_then_listed (student : StudentBase) (st : Store) :
  (¬ email_taken (sb_email student) st →
     ∃ s rows,
       fst (create_student student st) = Returned s
       ∧ fst (get_students (snd (create_student student st))) = Returned rows
       ∧ rows ≡ₚ s :: db_students st)
  ∧ (email_taken (sb_email student) st →
     snd (create_student student st) = st).
Proof.
  unfold get_students. split; intros He.
  - rewrite create_student_fresh by done. rewrite execute_select_all.
    cbn [fst snd rows students db_students]. do 2 eexists.
    split; [reflexivity|]. split; [reflexivity|].
    symmetry. apply Permutation_cons_append.
  - by rewrite create_student_conflict.
Qed.

Lemma create_student_then_listed_witness :
  let eve := {| sb_name := "Eve"; sb_email := "eve@example.org" |} in
  let ada := {| sb_name := "Ada L"; sb_email := "ada@example.org" |} in
  (∃ s rows,
     fst (create_student eve sample_store) = Returned s
     ∧ fst (get_students (snd (create_student eve sample_store)))
       = Returned rows
     ∧ rows ≡ₚ s :: db_students sample_store)
  ∧ snd (create_student ada sample_store) = sample_store.
Proof.
  intros eve ada.
  destruct (create_student_then_listed eve sample_store) as [Hfresh _].
  destruct (create_student_then_listed ada sample_store) as [_ Htaken].
  split.
  - apply Hfresh. by_running.
  - apply Htaken. by_running.
Defined.

(** X4. After [create_student] has run for an email, with whatever result,
    that email is taken: a further [create_student] with the same email, under
    any name, raises 400 "Email already exists" and leaves the store as it
    was. *)
Theorem create_student_twice (student : StudentBase) (name : string)
    (st : Store) :
  let st' := snd (create_student student st) in
  email_taken (sb_email student) st'
  ∧ create_student {| sb_name := name; sb_email := sb_email student |} st'
    = (Raised (HTTPException 400 "Email already exists"), st').
Proof.
  cbn zeta.
  assert (email_taken (sb_email student) (snd (create_student student st)))
    as Htaken.
  { destruct (create_student_cases student st)
      as [[He ->]|(_ & _ & Hrows & _)]; [done|].
    exists (stored_student st student). rewrite Hrows. split; [|done].
    apply elem_of_app. right. by apply list_elem_of_singleton. }
  split; [done|]. by apply create_student_conflict.
Qed.

(** X5. Stored emails stay pairwise different: every request preserves "no
    two students share an email", and so it holds in every store reached
    from the empty store. *)
Theorem student_emails_unique :
  (∀ r st, unique_emails st → unique_emails (serve r st))
  ∧ (∀ st, reachable st → unique_emails st).
Proof.
  assert (∀ r st, unique_emails st → unique_emails (serve r st)) as Hstep.
  { unfold unique_emails. intros r st Hst.
    destruct r as [b| |sid|b| |cid|e|sid cid|sid cid g|sid cid|sid];
      cbn [serve].
    - destruct (create_student_cases b st)
        as [[_ ->]|(Hfresh & _ & -> & _)]; [done|].
      rewrite fmap_app. apply NoDup_app. split; [done|]. split.
      + intros email Hin Hnew. apply Hfresh.
        apply list_elem_of_singleton in Hnew as ->.
        apply list_elem_of_fmap in Hin as (s & Hs & Hin). by exists s.
      + apply NoDup_singleton.
    - unfold get_students. by rewrite execute_select_all.
    - rewrite delete_student_run. cbn [snd db_students].
      eapply sublist_NoDup; [exact Hst|]. apply fmap_sublist, sublist_filter.
    - done.
    - unfold get_courses. by rewrite execute_select_all.
    - by rewrite delete_course_run.
    - by rewrite (proj1 (create_enrollment_frame e st)).
    - by rewrite get_enrollments_run.
    - by rewrite (proj1 (update_grade_frame sid cid g st)).
    - by rewrite delete_enrollment_run.
    - by rewrite calculate_gpa_run. }
  split; [exact Hstep|].
  induction 1 as [|r st _ IH]; [apply NoDup_nil_2|by apply Hstep].
Qed.

Lemma student_emails_unique_witness :
  reachable sample_store ∧ unique_emails sample_store.
Proof.
  assert (reachable sample_store) as Hreach.
  { unfold sample_store. cbn [foldl].
    repeat apply reachable_serve. apply reachable_empty. }
  split; [exact Hreach|].
  destruct student_emails_unique as [_ Hall]. by apply Hall.
Defined.

(** ** Enrollments *)

Lemma pair_filter_snoc sid cid (l : list Enrollment) e :
  student_id e = sid → course_id e = cid →
  filter (λ x, student_id x = sid ∧ course_id x = cid) (l ++ [e])
  = filter (λ x, student_id x = sid ∧ course_id x = cid) l ++ [e].
Proof.
  intros Hs Hc. rewrite filter_app. f_equal.
  by rewrite filter_cons_True.
Qed.

Lemma not_enrolled_filter sid cid st :
  ¬ enrolled sid cid st →
  filter (λ x, student_id x = sid ∧ course_id x = cid) (db_enrollments st) = [].
Proof.
  intros Hne. apply filter_none. intros e He [Hs Hc]. apply Hne. by exists e.
Qed.

Lemma get_enrollments_pair sid cid st :
  sid ≠ 0 → cid ≠ 0 →
  get_enrollments (Some sid) (Some cid) st
  = (Returned (filter (λ x, student_id x = sid ∧ course_id x = cid)
                      (db_enrollments st)), st).
Proof.
  intros Hs Hc. rewrite get_enrollments_supplied by congruence. done.
Qed.

(** X6. When [create_enrollment] returns a record, that record is the
    enrollment that was sent, and it is what [get_enrollments] then returns
    for its pair, alone and with the keys and the grade that were sent,
    provided neither key is 0. *)
Theorem create_enrollment_then_listed (e r : Enrollment) (st : Store) :
  fst (create_enrollment e st) = Returned r →
  student_id e ≠ 0 → course_id e ≠ 0 →
  r = e
  ∧ fst (get_enrollments (Some (student_id e)) (Some (course_id e))
                         (snd (create_enrollment e st)))
    = Returned [e].
Proof.
  intros Hret Hs0 Hc0.
  destruct (create_enrollment_cases e st)
    as [(x & Heq & _)|(Hs & Hc & Hne & Hok & Heq)];
    rewrite Heq in *; [discriminate Hret|].
  split; [by injection Hret|].
  rewrite get_enrollments_pair by done.
  cbn [fst snd set_rows enrollments db_enrollments]. f_equal.
  rewrite pair_filter_snoc by done. by rewrite not_enrolled_filter.
Qed.

Lemma create_enrollment_then_listed_witness :
  let e := {| student_id := 2; course_id := 3; grade := Some 2.5%float |} in
  fst (get_enrollments (Some 2) (Some 3) (snd (create_enrollment e sample_store)))
  = Returned [e].
Proof.
  intros e.
  apply (create_enrollment_then_listed e e sample_store);
    first [reflexivity | cbn; lia].
Defined.

(** X7. Once [create_enrollment] has returned for a pair, a second
    [create_enrollment] for the same pair, with any grade, raises 400
    "Student already enrolled in this course" and leaves the store as it
    was. *)
Theorem create_enrollment_twice (e e' r : Enrollment) (st : Store) :
  fst (create_enrollment e st) = Returned r →
  student_id e' = student_id e → course_id e' = course_id e →
  create_enrollment e' (snd (create_enrollment e st))
  = (Raised (HTTPException 400 "Student already enrolled in this course"),
     snd (create_enrollment e st)).
Proof.
  intros Hret Hs Hc.
  destruct (create_enrollment_cases e st)
    as [(x & Heq & _)|(Hse & Hce & _ & _ & Heq)];
    rewrite Heq in *; [discriminate Hret|].
  cbn [snd]. apply create_enrollment_duplicate.
  - rewrite Hs. by apply (student_exists_rows _ st).
  - rewrite Hc. by apply (course_exists_rows _ st).
  - exists e. rewrite Hs, Hc. split; [|done].
    cbn [set_rows enrollments db_enrollments].
    apply elem_of_app. right. by apply list_elem_of_singleton.
Qed.

Lemma create_enrollment_twice_witness :
  let e := {| student_id := 2; course_id := 3; grade := None |} in
  let e' := {| student_id := 2; course_id := 3; grade := Some 4%float |} in
  fst (create_enrollment e' (snd (create_enrollment e sample_store)))
  = Raised (HTTPException 400 "Student already enrolled in this course").
Proof.
  intros e e'.
  rewrite (create_enrollment_twice e e' e sample_store); reflexivity.
Defined.

Lemma filter_pair_update sid cid g (l : list Enrollment) :
  filter (λ x, student_id x = sid ∧ course_id x = cid)
    ((λ e, if decide (student_id e = sid ∧ course_id e = cid)
           then with_grade g e else e) <$> l)
  = (λ _, {| student_id := sid; course_id := cid; grade := Some g |})
      <$> filter (λ x, student_id x = sid ∧ course_id x = cid) l.
Proof.
  induction l as [|e l IH]; [done|].
  rewrite fmap_cons, !filter_cons.
  destruct (decide (student_id e = sid ∧ course_id e = cid)) as [[Hs Hc]|Hn].
  - rewrite decide_True by done. rewrite fmap_cons, IH. f_equal.
    unfold with_grade. by rewrite Hs, Hc.
  - rewrite decide_False by done. exact IH.
Qed.

Lemma unique_pair_filter sid cid (l : list Enrollment) :
  NoDup (enrollment_key <$> l) →
  (length (filter (λ x, student_id x = sid ∧ course_id x = cid) l) ≤ 1)%nat.
Proof.
  induction l as [|e l IH]; [simpl; lia|].
  rewrite fmap_cons, NoDup_cons. intros [Hnew Hl].
  rewrite filter_cons.
  destruct (decide (student_id e = sid ∧ course_id e = cid)) as [[Hs Hc]|Hn];
    [|by apply IH].
  rewrite filter_none; [simpl; lia|].
  intros x Hx [Hxs Hxc]. apply Hnew. apply list_elem_of_fmap.
  exists x. split; [|done]. unfold enrollment_key. congruence.
Qed.

(** X8. When [update_grade] returns a record for a pair with no zero key,
    [get_enrollments] for that pair then returns at least one row, and every
    row it returns is the pair with the grade just written; when the table
    held at most one enrollment per pair, it returns exactly that one
    row. *)
Theorem update_grade_then_listed (sid cid : Z) (g : float) (r : Enrollment)
    (st : Store) :
  fst (update_grade sid cid g st) = Returned r → sid ≠ 0 → cid ≠ 0 →
  let row := {| student_id := sid; course_id := cid; grade := Some g |} in
  ∃ rows,
    fst (get_enrollments (Some sid) (Some cid) (snd (update_grade sid cid g st)))
    = Returned rows
    ∧ rows ≠ []
    ∧ (∀ e, e ∈ rows → e = row)
    ∧ (unique_enrollments st → rows = [row]).
Proof.
  intros Hret Hs Hc row.
  destruct (update_grade_cases sid cid g st)
    as [(x & Heq & _)|(He & Hok & Heq)];
    rewrite Heq in *; [discriminate Hret|].
  eexists. rewrite get_enrollments_pair by done.
  cbn [fst snd set_rows enrollments db_enrollments].
  rewrite filter_pair_update. split; [reflexivity|].
  pose proof (unique_pair_filter sid cid (db_enrollments st)) as Hone.
  destruct (filter _ (db_enrollments st)) as [|x l] eqn:Hrows.
  { exfalso. destruct He as (e & He & Hes & Hec).
    eapply (filter_nil_not_elem_of _ _ e); [exact Hrows| |exact He]. done. }
  split; [done|]. split.
  - intros e Hin. by apply list_elem_of_fmap in Hin as (? & -> & _).
  - intros Hu. specialize (Hone Hu). destruct l; [done|simpl in Hone; lia].
Qed.

Lemma update_grade_then_listed_witness :
  fst (get_enrollments (Some 1) (Some 3) (snd (update_grade 1 3 2.5 sample_store)))
  = Returned [ {| student_id := 1; course_id := 3; grade := Some 2.5%float |} ].
Proof.
  destruct (update_grade_then_listed 1 3 2.5
              {| student_id := 1; course_id := 3; grade := Some 2.5%float |}
              sample_store)
    as (rows & Hrows & _ & _ & Hone); [reflexivity|lia|lia|].
  rewrite Hrows. f_equal. apply Hone.
  apply (bool_decide_unpack _). vm_compute. exact I.
Defined.

Lemma update_grade_enrolled sid cid g st sid' cid' :
  enrolled sid' cid' (snd (update_grade sid cid g st)) ↔ enrolled sid' cid' st.
Proof.
  pose proof (update_grade_keys sid cid g st) as Hkeys.
  split; intros (e & He & Hs & Hc).
  - assert (enrollment_key e ∈ enrollment_key <$> db_enrollments st) as Hin.
    { rewrite <- Hkeys. by apply list_elem_of_fmap_2. }
    apply list_elem_of_fmap in Hin as (x & Hk & Hx). exists x.
    split; [done|]. inversion Hk. split; congruence.
  - assert (enrollment_key e
            ∈ enrollment_key <$> db_enrollments (snd (update_grade sid cid g st)))
      as Hin.
    { rewrite Hkeys. by apply list_elem_of_fmap_2. }
    apply list_elem_of_fmap in Hin as (x & Hk & Hx). exists x.
    split; [done|]. inversion Hk. split; congruence.
Qed.

(** X9. The last grade written wins: for a finite grade g2, an
    [update_grade] with g2 run after an [update_grade] of the same pair,
    whatever the first one wrote or raised, gives the result and the store
    of the update with g2 run alone.  In particular writing the same finite
    grade twice changes nothing more. *)
Theorem update_grade_last_wins (sid cid : Z) (g1 g2 : float) (st : Store) :
  PyFloat.json_ok g2 = true →
  update_grade sid cid g2 (snd (update_grade sid cid g1 st))
  = update_grade sid cid g2 st.
Proof.
  intros Hok2.
  destruct (update_grade_cases sid cid g1 st)
    as [(x & -> & _)|(He & Hok1 & Heq1)]; [done|].
  assert (enrolled sid cid (snd (update_grade sid cid g1 st))) as He1
    by (by apply update_grade_enrolled).
  rewrite (update_grade_found sid cid g2 _ He1 Hok2).
  rewrite (update_grade_found sid cid g2 st He Hok2).
  rewrite Heq1.
  cbn [snd set_rows enrollments db_enrollments db_students db_courses
       students_seq courses_seq].
  do 2 f_equal. rewrite <- list_fmap_compose. apply list_fmap_ext.
  intros _ e _. simpl.
  destruct (decide (student_id e = sid ∧ course_id e = cid)) as [Hp|Hp].
  - rewrite decide_True by done. done.
  - rewrite decide_False by done. done.
Qed.

Lemma update_grade_last_wins_witness :
  update_grade 1 2 3.5 (snd (update_grade 1 2 2 sample_store))
  = update_grade 1 2 3.5 sample_store
  ∧ update_grade 1 2 3.5 (snd (update_grade 1 2 nan sample_store))
    = update_grade 1 2 3.5 sample_store.
Proof.
  split.
  - apply (update_grade_last_wins 1 2 2 3.5 sample_store). reflexivity.
  - apply (update_grade_last_wins 1 2 nan 3.5 sample_store). reflexivity.
Defined.

(** X10. After [delete_enrollment] the pair has no enrollment: an
    [update_grade] for it raises 404 "Enrollment not found", a second
    [delete_enrollment] changes nothing, and the enrollments of every other
    pair are still there. *)
Theorem delete_enrollment_then (sid cid : Z) (st : Store) :
  let st' := snd (delete_enrollment sid cid st) in
  (∀ g, update_grade sid cid g st'
        = (Raised (HTTPException 404 "Enrollment not found"), st'))
  ∧ snd (delete_enrollment sid cid st') = st'
  ∧ (∀ e, e ∈ db_enrollments st →
       ¬ (student_id e = sid ∧ course_id e = cid) →
       e ∈ db_enrollments st').
Proof.
  pose proof (delete_enrollment_not_enrolled sid cid st) as Hgone.
  cbn zeta. split; [|split].
  - intros g. by apply update_grade_missing.
  - rewrite !delete_enrollment_run.
    cbn [snd set_rows enrollments db_enrollments db_students db_courses
         students_seq courses_seq].
    by rewrite filter_filter_same.
  - intros e He Hne. rewrite delete_enrollment_run.
    cbn [snd set_rows enrollments db_enrollments].
    by apply list_elem_of_filter.
Qed.

Lemma delete_enrollment_then_witness :
  let st' := snd (delete_enrollment 1 2 sample_store) in
  {| student_id := 1; course_id := 1; grade := Some 3%float |}
    ∈ db_enrollments st'
  ∧ fst (update_grade 1 2 4 st')
    = Raised (HTTPException 404 "Enrollment not found").
Proof.
  intros st'.
  destruct (delete_enrollment_then 1 2 sample_store) as (Hupd & _ & Hkeep).
  split.
  - apply Hkeep; [|cbn; lia].
    apply list_elem_of_In. vm_compute. left. reflexivity.
  - fold st' in Hupd. by rewrite Hupd.
Defined.

(** ** After a cascade delete *)

Lemma graded_nil sid st :
  (∀ e, e ∈ db_enrollments st → student_id e ≠ sid) → graded sid st = [].
Proof.
  intros Hno. unfold graded. rewrite filter_none; [done|].
  intros e He Hs. by apply (Hno e).
Qed.

(** X11. After [delete_student] the student is gone for the other handlers:
    [create_enrollment] for that student_id raises 404 "Student not found"
    whatever the course, [calculate_gpa] returns the "No grades found"
    sentinel, and a second [delete_student] changes nothing. *)
Theorem delete_student_then (sid : Z) (st : Store) :
  let st' := snd (delete_student sid st) in
  (∀ cid g,
     create_enrollment {| student_id := sid; course_id := cid; grade := g |} st'
     = (Raised (HTTPException 404 "Student not found"), st'))
  ∧ calculate_gpa sid st'
    = (Returned {| gpa := 0%float; gpa_message := Some "No grades found" |},
       st')
  ∧ snd (delete_student sid st') = st'.
Proof.
  pose proof (delete_student_not_exists sid st) as Hgone.
  cbn zeta. split; [|split].
  - intros cid g. by apply create_enrollment_no_student.
  - rewrite calculate_gpa_run, graded_nil; [done|].
    rewrite delete_student_run. cbn [snd db_enrollments]. intros e He.
    by apply list_elem_of_filter in He as [? _].
  - rewrite !delete_student_run.
    cbn [snd db_enrollments db_students db_courses students_seq courses_seq].
    by rewrite !filter_filter_same.
Qed.

(** X12. After [delete_course], [create_enrollment] of a stored student in
    that course raises 404 "Course not found" and stores nothing. *)
Theorem delete_course_then_enroll (sid cid : Z) (g : option float)
    (st : Store) :
  student_exists sid st →
  let st' := snd (delete_course cid st) in
  create_enrollment {| student_id := sid; course_id := cid; grade := g |} st'
  = (Raised (HTTPException 404 "Course not found"), st').
Proof.
  intros Hs st'. apply create_enrollment_no_course.
  - apply (student_exists_rows _ st); [|done].
    unfold st'. by rewrite delete_course_run.
  - apply delete_course_not_exists.
Qed.

Lemma delete_course_then_enroll_witness :
  fst (create_enrollment {| student_id := 2; course_id := 3; grade := None |}
                         (snd (delete_course 3 sample_store)))
  = Raised (HTTPException 404 "Course not found").
Proof.
  rewrite (delete_course_then_enroll 2 3 None sample_store);
    [reflexivity|by_running].
Defined.

(** ** What a GPA depends on *)

Lemma filter_fmap_stable {A} (P : A → Prop) `{∀ x, Decision (P x)}
    (f : A → A) (l : list A) :
  (∀ x, P x → f x = x) → (∀ x, ¬ P x → ¬ P (f x)) →
  filter P (f <$> l) = filter P l.
Proof.
  intros Hfix Hout. induction l as [|x l IH]; [done|].
  rewrite fmap_cons, !filter_cons. destruct (decide (P x)) as [Hx|Hx].
  - rewrite (Hfix x Hx), decide_True by done. by rewrite IH.
  - rewrite decide_False by (by apply Hout). exact IH.
Qed.

Lemma filter_filter_implied {A} (P Q : A → Prop)
    `{∀ x, Decision (P x)} `{∀ x, Decision (Q x)} (l : list A) :
  (∀ x, P x → Q x) → filter P (filter Q l) = filter P l.
Proof.
  intros HPQ. induction l as [|x l IH]; [done|].
  rewrite !filter_cons. destruct (decide (Q x)) as [Hq|Hq].
  - rewrite filter_cons. by rewrite IH.
  - rewrite decide_False; [done|]. intros Hp. by apply Hq, HPQ.
Qed.

Lemma graded_snoc sid e st st' :
  db_enrollments st' = db_enrollments st ++ [e] →
  grade e = None ∨ student_id e ≠ sid →
  graded sid st' = graded sid st.
Proof.
  intros Hrows He. unfold graded. rewrite Hrows, filter_app, omap_app.
  rewrite filter_cons, filter_nil.
  destruct (decide (student_id e = sid)) as [Hs|Hs]; cbn.
  - destruct He as [->|Hne]; [|done]. cbn. by rewrite app_nil_r.
  - by rewrite app_nil_r.
Qed.

Lemma calculate_gpa_graded sid st st' :
  graded sid st' = graded sid st →
  fst (calculate_gpa sid st') = fst (calculate_gpa sid st).
Proof. intros Hg. by rewrite !calculate_gpa_run, Hg. Qed.

(** X13. An enrollment created without a grade does not change any GPA:
    [calculate_gpa] returns for every student what it returned before the
    [create_enrollment], whether that request succeeded or not. *)
Theorem null_grade_keeps_gpa (e : Enrollment) (sid : Z) (st : Store) :
  grade e = None →
  fst (calculate_gpa sid (snd (create_enrollment e st)))
  = fst (calculate_gpa sid st).
Proof.
  intros Hnull. apply calculate_gpa_graded.
  destruct (create_enrollment_cases e st)
    as [(x & -> & _)|(_ & _ & _ & _ & ->)]; [done|].
  apply (graded_snoc sid e); [done|by left].
Qed.

Lemma null_grade_keeps_gpa_witness :
  fst (calculate_gpa 1
         (snd (create_enrollment
                 {| student_id := 1; course_id := 3; grade := None |}
                 (snd (delete_enrollment 1 3 sample_store)))))
  = Returned {| gpa := 3.5%float; gpa_message := None |}.
Proof.
  rewrite (null_grade_keeps_gpa _ 1 _); reflexivity.
Defined.

(** X14. The GPA of a student only depends on that student's enrollments:
    creating, grading or deleting an enrollment of another student, or
    deleting another student, leaves what [calculate_gpa] returns
    unchanged. *)
Theorem other_student_keeps_gpa (sid sid' : Z) (st : Store) :
  sid' ≠ sid →
  (∀ cid g,
     fst (calculate_gpa sid
            (snd (create_enrollment
                    {| student_id := sid'; course_id := cid; grade := g |} st)))
     = fst (calculate_gpa sid st))
  ∧ (∀ cid g,
     fst (calculate_gpa sid (snd (update_grade sid' cid g st)))
     = fst (calculate_gpa sid st))
  ∧ (∀ cid,
     fst (calculate_gpa sid (snd (delete_enrollment sid' cid st)))
     = fst (calculate_gpa sid st))
  ∧ fst (calculate_gpa sid (snd (delete_student sid' st)))
    = fst (calculate_gpa sid st).
Proof.
  intros Hne. split; [|split; [|split]].
  - intros cid g. apply calculate_gpa_graded.
    destruct (create_enrollment_cases
                {| student_id := sid'; course_id := cid; grade := g |} st)
      as [(x & -> & _)|(_ & _ & _ & _ & ->)]; [done|].
    eapply (graded_snoc sid); [done|by right].
  - intros cid g. apply calculate_gpa_graded.
    destruct (update_grade_cases sid' cid g st)
      as [(x & -> & _)|(_ & _ & ->)]; [done|].
    unfold graded.
    cbn [snd set_rows enrollments db_enrollments]. f_equal.
    apply filter_fmap_stable.
    + intros e Hs. rewrite decide_False; [done|]. intros [Hs' _]. congruence.
    + intros e Hs. case_decide; [|done]. done.
  - intros cid. apply calculate_gpa_graded. rewrite delete_enrollment_run.
    unfold graded. cbn [snd set_rows enrollments db_enrollments]. f_equal.
    apply filter_filter_implied. intros e Hs [Hs' _]. congruence.
  - apply calculate_gpa_graded. rewrite delete_student_run.
    unfold graded. cbn [snd db_enrollments]. f_equal.
    apply filter_filter_implied. intros e Hs Hs'. congruence.
Qed.

Lemma other_student_keeps_gpa_witness :
  fst (calculate_gpa 1 (snd (delete_student 2 sample_store)))
  = Returned {| gpa := 3.5%float; gpa_message := None |}.
Proof.
  destruct (other_student_keeps_gpa 1 2 sample_store) as (_ & _ & _ & H);
    [lia|].
  rewrite H. reflexivity.
Defined.

(** X15. When [update_grade] returns a record for a student, the grade
    written is among the grades [calculate_gpa] then averages for that
    student, and the answer is a GPA, never the "No grades found"
    sentinel. *)
Theorem update_grade_then_gpa_counts (sid cid : Z) (g : float)
    (r : Enrollment) (st : Store) :
  fst (update_grade sid cid g st) = Returned r →
  let st' := snd (update_grade sid cid g st) in
  g ∈ graded sid st'
  ∧ calculate_gpa sid st'
    = (Returned {| gpa := PyFloat.round (mean (graded sid st')) 2;
                   gpa_message := None |}, st').
Proof.
  intros Hret st'.
  assert (g ∈ graded sid st') as Hin.
  { unfold graded. apply list_elem_of_omap.
    exists {| student_id := sid; course_id := cid; grade := Some g |}.
    split; [|done]. apply list_elem_of_filter. split; [done|].
    unfold st'.
    destruct (update_grade_cases sid cid g st)
      as [(x & Heq & _)|(He & Hok & Heq)];
      rewrite Heq in *; [discriminate Hret|].
    cbn [snd set_rows enrollments db_enrollments].
    destruct He as (e & He & Hs & Hc).
    apply list_elem_of_fmap. exists e. split; [|done].
    rewrite decide_True by done. unfold with_grade. by rewrite Hs, Hc. }
  split; [done|]. rewrite calculate_gpa_run.
  destruct (graded sid st'); [|done]. by apply elem_of_nil in Hin.
Qed.

Lemma update_grade_then_gpa_counts_witness :
  fst (calculate_gpa 1 (snd (update_grade 1 3 2 sample_store)))
  = Returned {| gpa := 3%float; gpa_message := None |}.
Proof.
  destruct (update_grade_then_gpa_counts 1 3 2
              {| student_id := 1; course_id := 3; grade := Some 2%float |}
              sample_store) as [_ H]; [reflexivity|].
  rewrite H. reflexivity.
Defined.

(** ** Listings *)




(** ** Two more invariants of the reachable stores *)

Lemma student_exists_filter sid sid' st st' :
  db_students st' = filter (λ s, s_id s ≠ sid') (db_students st) →
  sid ≠ sid' → student_exists sid st → student_exists sid st'.
Proof.
  intros Hrows Hne (s & Hs & Hid). exists s. split; [|done].
  rewrite Hrows. apply list_elem_of_filter. split; [congruence|done].
Qed.

Lemma course_exists_filter cid cid' st st' :
  db_courses st' = filter (λ c, c_id c ≠ cid') (db_courses st) →
  cid ≠ cid' → course_exists cid st → course_exists cid st'.
Proof.
  intros Hrows Hne (c & Hc & Hid). exists c. split; [|done].
  rewrite Hrows. apply list_elem_of_filter. split; [congruence|done].
Qed.

Lemma serve_references r st :
  references_exist st → references_exist (serve r st).
Proof.
  intros Hst.
  destruct r as [b| |sid|b| |cid|e|sid cid|sid cid g|sid cid|sid];
    cbn [serve].
  - destruct (create_student_cases b st)
      as [[_ ->]|(_ & _ & Hs & Hc & He)]; [done|].
    intros e Hin. rewrite He in Hin. destruct (Hst e Hin) as [H1 H2]. split.
    + destruct H1 as (s & Hin' & Hid). exists s. rewrite Hs.
      split; [|done]. apply elem_of_app. by left.
    + by apply (course_exists_rows _ st).
  - unfold get_students. by rewrite execute_select_all.
  - intros e Hin. rewrite delete_student_run in *.
    cbn [snd db_enrollments] in Hin.
    apply list_elem_of_filter in Hin as [Hne Hin].
    destruct (Hst e Hin) as [H1 H2]. split.
    + by apply (student_exists_filter _ sid st).
    + by apply (course_exists_rows _ st).
  - rewrite create_course_run. cbn [snd]. intros e Hin.
    cbn [db_enrollments] in Hin. destruct (Hst e Hin) as [H1 H2]. split.
    + by apply (student_exists_rows _ st).
    + destruct H2 as (c & Hin' & Hid). exists c. cbn [db_courses].
      split; [|done]. apply elem_of_app. by left.
  - unfold get_courses. by rewrite execute_select_all.
  - intros e Hin. rewrite delete_course_run in *.
    cbn [snd db_enrollments] in Hin.
    apply list_elem_of_filter in Hin as [Hne Hin].
    destruct (Hst e Hin) as [H1 H2]. split.
    + by apply (student_exists_rows _ st).
    + by apply (course_exists_filter _ cid st).
  - destruct (create_enrollment_cases e st)
      as [(x & -> & _)|(Hs & Hc & _ & _ & ->)]; [done|].
    cbn [snd]. intros x Hin. cbn [set_rows enrollments db_enrollments] in Hin.
    apply elem_of_app in Hin as [Hin|Hin].
    + destruct (Hst x Hin) as [H1 H2]. split.
      * by apply (student_exists_rows _ st).
      * by apply (course_exists_rows _ st).
    + apply list_elem_of_singleton in Hin as ->. split.
      * by apply (student_exists_rows _ st).
      * by apply (course_exists_rows _ st).
  - by rewrite get_enrollments_run.
  - destruct (update_grade_frame sid cid g st) as [Hs Hc].
    intros e Hin.
    assert (enrolled (student_id e) (course_id e) st) as (x & Hx & Hxs & Hxc).
    { apply (update_grade_enrolled sid cid g). by exists e. }
    destruct (Hst x Hx) as [H1 H2]. rewrite Hxs in H1. rewrite Hxc in H2.
    split.
    + by apply (student_exists_rows _ st).
    + by apply (course_exists_rows _ st).
  - rewrite delete_enrollment_run. cbn [snd]. intros e Hin.
    cbn [set_rows enrollments db_enrollments] in Hin.
    apply list_elem_of_filter in Hin as [_ Hin].
    destruct (Hst e Hin) as [H1 H2]. split.
    + by apply (student_exists_rows _ st).
    + by apply (course_exists_rows _ st).
  - by rewrite calculate_gpa_run.
Qed.

(** X17. No enrollment is left dangling: every request preserves "each
    enrollment refers to a stored student and to a stored course" -- the
    creates check both references, the two cascade deletes remove the
    enrollments before the row they refer to -- and so it holds in every
    store reached from the empty store. *)
Theorem enrollments_reference_rows :
  (∀ r st, references_exist st → references_exist (serve r st))
  ∧ (∀ st, reachable st → references_exist st).
Proof.
  split; [apply serve_references|].
  induction 1 as [|r st _ IH].
  - intros e He. by apply elem_of_nil in He.
  - by apply serve_references.
Qed.

Lemma enrollments_reference_rows_witness :
  let st := serve (DeleteCourse 2) (serve (DeleteStudent 2) sample_store) in
  reachable st ∧ references_exist st.
Proof.
  intros st.
  assert (reachable st) as Hreach.
  { unfold st, sample_store. cbn [foldl].
    repeat apply reachable_serve. apply reachable_empty. }
  split; [exact Hreach|].
  destruct enrollments_reference_rows as [_ Hall]. by apply Hall.
Defined.

(** ** Responses *)

(** X18. The handlers raise nothing but the HTTP errors 400 and 404 and,
    for a request whose grade is NaN or infinite, the [ValueError] of the
    store client: indexing [result.data[0]], summing the grades and
    dividing by their count never fail.  The reads, the three deletes and
    [create_course] always return. *)
Theorem responses_classified (r : request) (st : Store) :
  (respond r st = Returned tt
   ∨ (∃ code detail,
        (code = 400 ∨ code = 404)
        ∧ respond r st = Raised (HTTPException code detail))
   ∨ (respond r st = Raised ValueError ∧ request_json_ok r = false))
  ∧ (may_raise r = false → respond r st = Returned tt).
Proof.
  destruct r as [b| |sid|b| |cid|e|sid cid|sid cid g|sid cid|sid];
    cbn [respond may_raise request_json_ok].
  - split; [|done].
    destruct (create_student_cases b st) as [[_ ->]|(_ & -> & _)].
    + right. left. do 2 eexists. split; [by left|done].
    + by left.
  - unfold get_students. rewrite execute_select_all. by split; [left|].
  - rewrite delete_student_run. by split; [left|].
  - rewrite create_course_run. by split; [left|].
  - unfold get_courses. rewrite execute_select_all. by split; [left|].
  - rewrite delete_course_run. by split; [left|].
  - split; [|done].
    destruct (create_enrollment_cases e st)
      as [(x & -> & [[-> Hok]|(code & detail & -> & Hcode)])
         |(_ & _ & _ & _ & ->)].
    + right. right. done.
    + right. left. by exists code, detail.
    + by left.
  - rewrite get_enrollments_run. by split; [left|].
  - split; [|done].
    destruct (update_grade_cases sid cid g st)
      as [(x & -> & [[-> Hok]| ->])|(_ & _ & ->)].
    + right. right. done.
    + right. left. do 2 eexists. split; [by right|done].
    + by left.
  - rewrite delete_enrollment_run. by split; [left|].
  - rewrite calculate_gpa_run. by split; [left|].
Qed.

Lemma responses_classified_witness :
  respond (DeleteCourse 9) sample_store = Returned tt
  ∧ respond (CalculateGpa 1) sample_store = Returned tt.
Proof.
  split.
  - apply (responses_classified (DeleteCourse 9) sample_store). reflexivity.
  - apply (responses_classified (CalculateGpa 1) sample_store). reflexivity.
Defined.

(** X19. A request that raises has written nothing: whenever a handler
    answers with an exception, the store is the one it started from. *)
Theorem raise_leaves_store (r : request) (st : Store) (e : exn) :
  respond r st = Raised e → serve r st = st.
Proof.
  destruct r as [b| |sid|b| |cid|x|sid cid|sid cid g|sid cid|sid];
    cbn [respond serve].
  - destruct (create_student_cases b st) as [[_ ->]|(_ & -> & _)]; done.
  - unfold get_students. by rewrite execute_select_all.
  - by rewrite delete_student_run.
  - by rewrite create_course_run.
  - unfold get_courses. by rewrite execute_select_all.
  - by rewrite delete_course_run.
  - destruct (create_enrollment_cases x st)
      as [(y & -> & _)|(_ & _ & _ & _ & ->)]; done.
  - by rewrite get_enrollments_run.
  - destruct (update_grade_cases sid cid g st)
      as [(y & -> & _)|(_ & _ & ->)]; done.
  - by rewrite delete_enrollment_run.
  - by rewrite calculate_gpa_run.
Qed.

Lemma raise_leaves_store_witness :
  serve (UpdateGrade 2 1 4) sample_store = sample_store
  ∧ serve (UpdateGrade 1 1 nan) sample_store = sample_store.
Proof.
  split.
  - apply (raise_leaves_store _ _ (HTTPException 404 "Enrollment not found")).
    reflexivity.
  - apply (raise_leaves_store _ _ ValueError). reflexivity.
Defined.
